(** * RobustCountdown: a shallow embedding of [src/robustCountdown.js]

    The class [RobustCountdown] is embedded as a record of its instance
    fields together with the part of the browser it talks to (the table of
    [setInterval] registrations and the trace of everything the instance
    does to the outside: DOM writes, callback invocations, console
    output, timer registrations).  Every method is a function between
    such systems; a method that reads the wall clock takes the reading
    ([new Date().getTime()]) as an argument, one argument per read.

    Callbacks are recorded in the trace, not run: what a callback does to
    the instance is a later call in the sequence of calls.  The document
    does not change under the instance.

    Numbers.  Timestamps and durations are JavaScript numbers holding
    integer milliseconds, or [NaN] (the time value of an invalid [Date]);
    they are modelled by [number Z].  Ratios (the progress values) are
    modelled by [number Q], the exact quotient standing for the double the
    engine computes.  Infinities and fractional milliseconds are outside
    the model. *)

From Stdlib Require Import ZArith QArith Qminmax List String Ascii Bool Lia.
From Stdlib Require Import Decimal DecimalString DecimalZ.
Import ListNotations.

Local Open Scope Z_scope.

(** ** JavaScript numbers *)

Inductive number (A : Type) : Type :=
| NaN : number A
| Num : A -> number A.

Arguments NaN {A}.
Arguments Num {A} _.

Module Js.

(** [a + b], [a - b] on integer-valued numbers. *)
Definition add (a b : number Z) : number Z :=
  match a, b with
  | Num x, Num y => Num (x + y)
  | _, _ => NaN
  end.

Definition sub (a b : number Z) : number Z :=
  match a, b with
  | Num x, Num y => Num (x - y)
  | _, _ => NaN
  end.

(** [Math.max(a, b)]: [NaN] as soon as one argument is [NaN]. *)
Definition max (a b : number Z) : number Z :=
  match a, b with
  | Num x, Num y => Num (Z.max x y)
  | _, _ => NaN
  end.

(** [Math.floor(a / k)] for a non-zero integer constant [k]. *)
Definition floor_div (a : number Z) (k : Z) : number Z :=
  match a with
  | Num x => Num (x / k)
  | NaN => NaN
  end.

(** [a % k]: the remainder takes the sign of the dividend. *)
Definition rem (a : number Z) (k : Z) : number Z :=
  match a with
  | Num x => Num (Z.rem x k)
  | NaN => NaN
  end.

(** [a > b] and [a <= b]: every comparison with [NaN] is false. *)
Definition gtb (a b : number Z) : bool :=
  match a, b with
  | Num x, Num y => y <? x
  | _, _ => false
  end.

Definition leb (a b : number Z) : bool :=
  match a, b with
  | Num x, Num y => x <=? y
  | _, _ => false
  end.

(** An integer-valued number seen as a ratio. *)
Definition toQ (a : number Z) : number Q :=
  match a with
  | Num x => Num (inject_Z x)
  | NaN => NaN
  end.

(** [a / b] on ratios.  Every division of the engine has a non-zero
    divisor (a positive constant, or a value guarded by [> 0]). *)
Definition div (a b : number Q) : number Q :=
  match a, b with
  | Num x, Num y => Num (x / y)%Q
  | _, _ => NaN
  end.

Definition maxQ (a b : number Q) : number Q :=
  match a, b with
  | Num x, Num y => Num (Qmax x y)
  | _, _ => NaN
  end.

Definition minQ (a b : number Q) : number Q :=
  match a, b with
  | Num x, Num y => Num (Qmin x y)
  | _, _ => NaN
  end.

(** [n.toString()] for an integer-valued number. *)
Definition toString (a : number Z) : string :=
  match a with
  | Num x => NilZero.string_of_int (Z.to_int x)
  | NaN => "NaN"%string
  end.

Fixpoint repeat_char (c : ascii) (n : nat) : string :=
  match n with
  | O => EmptyString
  | S k => String c (repeat_char c k)
  end.

(** [s.padStart(width, c)] for a one-character filler. *)
Definition padStart (width : nat) (c : ascii) (s : string) : string :=
  (repeat_char c (width - String.length s) ++ s)%string.

End Js.

(** ** Configuration *)

Definition Callback := nat.   (* identity of a host function *)
Definition Element := nat.    (* a wrapper element of the document *)
Definition Node := nat.       (* a display element inside a wrapper *)
Definition TimerId := positive.

(** [options.timer] *)
Record TimerOptions := {
  duration : option Z;        (* [None] is [null] *)
  disableOnPause : bool
}.

(** [options.on] *)
Record Callbacks := {
  on_update : option Callback;   (* [None] is [null] *)
  on_finish : option Callback
}.

(** [this.options], after the merge of the constructor or of [update]. *)
Record Options := {
  year : Z;
  month : Z;
  day : Z;
  hours : Z;
  minutes : Z;
  seconds : Z;
  enableUTC : bool;
  targetTime : option string;   (* [None] is [null] *)
  timer : TimerOptions;
  zeroPad : bool;
  daysSelector : string;
  hoursSelector : string;
  minutesSelector : string;
  secondsSelector : string;
  on : Callbacks
}.

(** The objects a caller passes: every key may be absent ([None]); a
    nullable key that is present holds [Some None] for [null]. *)
Record PartialTimer := {
  p_duration : option (option Z);
  p_disableOnPause : option bool
}.

Record PartialCallbacks := {
  p_on_update : option (option Callback);
  p_on_finish : option (option Callback)
}.

Record PartialOptions := {
  p_year : option Z;
  p_month : option Z;
  p_day : option Z;
  p_hours : option Z;
  p_minutes : option Z;
  p_seconds : option Z;
  p_enableUTC : option bool;
  p_targetTime : option (option string);
  p_timer : option PartialTimer;
  p_zeroPad : option bool;
  p_daysSelector : option string;
  p_hoursSelector : option string;
  p_minutesSelector : option string;
  p_secondsSelector : option string;
  p_on : option PartialCallbacks
}.

(** [{...base, ...over}] on one key. *)
Definition spread {A : Type} (base : A) (over : option A) : A :=
  match over with
  | Some v => v
  | None => base
  end.

(** [{ ...base, ...(over || {}) }] for the [timer] group. *)
Definition mergeTimer (base : TimerOptions) (over : option PartialTimer) : TimerOptions :=
  match over with
  | None => base
  | Some t =>
      {| duration := spread (duration base) (p_duration t);
         disableOnPause := spread (disableOnPause base) (p_disableOnPause t) |}
  end.

(** [{ ...base, ...(over || {}) }] for the [on] group. *)
Definition mergeOn (base : Callbacks) (over : option PartialCallbacks) : Callbacks :=
  match over with
  | None => base
  | Some c =>
      {| on_update := spread (on_update base) (p_on_update c);
         on_finish := spread (on_finish base) (p_on_finish c) |}
  end.

(** The deep merge shared by the constructor and [update]. *)
Definition mergeOptions (base : Options) (over : PartialOptions) : Options :=
  {| year := spread (year base) (p_year over);
     month := spread (month base) (p_month over);
     day := spread (day base) (p_day over);
     hours := spread (hours base) (p_hours over);
     minutes := spread (minutes base) (p_minutes over);
     seconds := spread (seconds base) (p_seconds over);
     enableUTC := spread (enableUTC base) (p_enableUTC over);
     targetTime := spread (targetTime base) (p_targetTime over);
     timer := mergeTimer (timer base) (p_timer over);
     zeroPad := spread (zeroPad base) (p_zeroPad over);
     daysSelector := spread (daysSelector base) (p_daysSelector over);
     hoursSelector := spread (hoursSelector base) (p_hoursSelector over);
     minutesSelector := spread (minutesSelector base) (p_minutesSelector over);
     secondsSelector := spread (secondsSelector base) (p_secondsSelector over);
     on := mergeOn (on base) (p_on over) |}.

(** The double quote, and the attribute selector
    [[data-countdown-type="unit"]] of the defaults. *)
Definition dquote : string := String (ascii_of_nat 34) EmptyString.

Definition typeSelector (unit : string) : string :=
  ("[data-countdown-type=" ++ dquote ++ unit ++ dquote ++ "]")%string.

(** The [defaults] object of the constructor; [currentYear] is
    [new Date().getFullYear()]. *)
Definition defaults (currentYear : Z) : Options :=
  {| year := currentYear;
     month := 1;
     day := 1;
     hours := 0;
     minutes := 0;
     seconds := 0;
     enableUTC := false;
     targetTime := None;
     timer := {| duration := None; disableOnPause := true |};
     zeroPad := true;
     daysSelector := typeSelector "days";
     hoursSelector := typeSelector "hours";
     minutesSelector := typeSelector "minutes";
     secondsSelector := typeSelector "seconds";
     on := {| on_update := None; on_finish := None |} |}.

(** ** The host: document and [Date] *)

Record Host := {
  (** [document.querySelectorAll(selector)] *)
  querySelectorAll : string -> list Element;
  (** [el.querySelector(selector)]: the first match, or [null] *)
  querySelector : Element -> string -> option Node;
  (** [new Date(str).getTime()]: [NaN] when the string does not parse *)
  Date_parse : string -> number Z;
  (** [new Date(Date.UTC(y, m, d, h, min, s)).getTime()] *)
  Date_UTC : Z -> Z -> Z -> Z -> Z -> Z -> number Z;
  (** [new Date(y, m, d, h, min, s).getTime()], local civil time *)
  Date_local : Z -> Z -> Z -> Z -> Z -> Z -> number Z;
  (** [new Date().getFullYear()] at a given reading of the clock *)
  getFullYear : Z -> Z
}.

(** ** Values handed to [on.update] *)

(** [progressObject] *)
Record progressObject := {
  total : number Q;
  r_days : number Q;
  r_hours : number Q;
  r_minutes : number Q;
  r_seconds : number Q
}.

(** [individualTimeData] *)
Record individualTimeData := {
  d_days : number Z;
  d_hours : number Z;
  d_minutes : number Z;
  d_seconds : number Z
}.

(** ** What the instance does to the outside *)

Inductive Event : Type :=
| ConsoleError (message : string)
| SetInnerText (node : Node) (text : string)
| OnUpdate (f : Callback) (progress : progressObject)
           (timeLeft : number Z) (data : individualTimeData)
| OnFinish (f : Callback)
| SetInterval (id : TimerId) (period : Z)
| ClearInterval (id : TimerId).

(** ** Instance and system state *)

(** The fields of an initialised instance. *)
Record RobustCountdown := {
  elements : list Element;
  options : Options;
  intervalId : option TimerId;   (* [None] is [null] *)
  isPaused : bool;
  pauseStart : Z;
  targetTimestamp : number Z;
  startTimestamp : Z;
  totalDuration : number Z
}.

(** The browser around the instance: the live [setInterval]
    registrations, the next handle [setInterval] returns, and the trace of
    what the instance did to the outside. *)
Record Browser := {
  timers : list TimerId;
  nextTimer : TimerId;
  log : list Event
}.

Record System := {
  this : RobustCountdown;
  browser : Browser
}.

Definition Method := System -> System.

(** [m1 ;; m2]: statement sequencing. *)
Definition seq (m1 m2 : Method) : Method := fun s => m2 (m1 s).

Declare Scope method_scope.
Delimit Scope method_scope with method.
Bind Scope method_scope with Method.
Notation "m1 ;; m2" := (seq m1 m2)
  (at level 61, right associativity) : method_scope.

(** Assignments [this.field = v]. *)
Definition assign (f : RobustCountdown -> RobustCountdown) : Method :=
  fun s => {| this := f (this s); browser := browser s |}.

Definition set_options (v : Options) (c : RobustCountdown) : RobustCountdown :=
  {| elements := elements c; options := v; intervalId := intervalId c;
     isPaused := isPaused c; pauseStart := pauseStart c;
     targetTimestamp := targetTimestamp c; startTimestamp := startTimestamp c;
     totalDuration := totalDuration c |}.

Definition set_intervalId (v : option TimerId) (c : RobustCountdown) : RobustCountdown :=
  {| elements := elements c; options := options c; intervalId := v;
     isPaused := isPaused c; pauseStart := pauseStart c;
     targetTimestamp := targetTimestamp c; startTimestamp := startTimestamp c;
     totalDuration := totalDuration c |}.

Definition set_isPaused (v : bool) (c : RobustCountdown) : RobustCountdown :=
  {| elements := elements c; options := options c; intervalId := intervalId c;
     isPaused := v; pauseStart := pauseStart c;
     targetTimestamp := targetTimestamp c; startTimestamp := startTimestamp c;
     totalDuration := totalDuration c |}.

Definition set_pauseStart (v : Z) (c : RobustCountdown) : RobustCountdown :=
  {| elements := elements c; options := options c; intervalId := intervalId c;
     isPaused := isPaused c; pauseStart := v;
     targetTimestamp := targetTimestamp c; startTimestamp := startTimestamp c;
     totalDuration := totalDuration c |}.

Definition set_targetTimestamp (v : number Z) (c : RobustCountdown) : RobustCountdown :=
  {| elements := elements c; options := options c; intervalId := intervalId c;
     isPaused := isPaused c; pauseStart := pauseStart c;
     targetTimestamp := v; startTimestamp := startTimestamp c;
     totalDuration := totalDuration c |}.

Definition set_startTimestamp (v : Z) (c : RobustCountdown) : RobustCountdown :=
  {| elements := elements c; options := options c; intervalId := intervalId c;
     isPaused := isPaused c; pauseStart := pauseStart c;
     targetTimestamp := targetTimestamp c; startTimestamp := v;
     totalDuration := totalDuration c |}.

Definition set_totalDuration (v : number Z) (c : RobustCountdown) : RobustCountdown :=
  {| elements := elements c; options := options c; intervalId := intervalId c;
     isPaused := isPaused c; pauseStart := pauseStart c;
     targetTimestamp := targetTimestamp c; startTimestamp := startTimestamp c;
     totalDuration := v |}.

(** An effect visible from outside is appended to the trace. *)
Definition record (es : list Event) (b : Browser) : Browser :=
  {| timers := timers b; nextTimer := nextTimer b; log := log b ++ es |}.

Definition emit (e : Event) : Method :=
  fun s => {| this := this s; browser := record [e] (browser s) |}.

Definition emits (es : list Event) : Method :=
  fun s => {| this := this s; browser := record es (browser s) |}.

(** [clearInterval(id)] *)
Definition clearInterval (id : TimerId) : Method :=
  fun s =>
    let b := browser s in
    {| this := this s;
       browser := {| timers := List.filter (fun i => negb (Pos.eqb i id)) (timers b);
                     nextTimer := nextTimer b;
                     log := log b ++ [ClearInterval id] |} |}.

(** [this.intervalId = setInterval(() => this.tick(), period)] *)
Definition setInterval (period : Z) : Method :=
  fun s =>
    let b := browser s in
    let id := nextTimer b in
    {| this := set_intervalId (Some id) (this s);
       browser := {| timers := id :: timers b;
                     nextTimer := Pos.succ id;
                     log := log b ++ [SetInterval id period] |} |}.

(** ** The methods of the class *)

Definition msPerSecond : Z := 1000.
Definition msPerMinute : Z := 1000 * 60.
Definition msPerHour : Z := 1000 * 60 * 60.
Definition msPerDay : Z := 1000 * 60 * 60 * 24.

(** The value of [opts.timer && opts.timer.duration] when it is truthy:
    a duration that is neither [null] nor [0]. *)
Definition relativeDuration (opts : Options) : option Z :=
  match duration (timer opts) with
  | Some d => if d =? 0 then None else Some d
  | None => None
  end.

(** The value of [opts.targetTime] when it is truthy: a string that is
    neither [null] nor empty. *)
Definition legacyTarget (opts : Options) : option string :=
  match targetTime opts with
  | Some str => if String.eqb str EmptyString then None else Some str
  | None => None
  end.

(** [v || fallback] on a number. *)
Definition orElse (v fallback : Z) : Z :=
  if v =? 0 then fallback else v.

Section Engine.

Variable host : Host.

(** [calculateTarget()]; [t] is the clock read on its first line. *)
Definition calculateTarget (t : Z) : Method :=
  fun s0 =>
    let s := assign (set_startTimestamp t) s0 in
    let opts := options (this s) in
    match relativeDuration opts with
    | Some d =>
        (* Priority 1: relative duration *)
        (assign (set_targetTimestamp (Js.add (Num (startTimestamp (this s))) (Num d))) ;;
         assign (set_totalDuration (Num d)))%method s
    | None =>
        (* Priority 2: targetTime, or the granular date *)
        let targetDate :=
          match legacyTarget opts with
          | Some str => Date_parse host str
          | None =>
              let y := year opts in
              let m := orElse (month opts) 1 - 1 in
              let d := orElse (day opts) 1 in
              let h := orElse (hours opts) 0 in
              let min := orElse (minutes opts) 0 in
              let sec := orElse (seconds opts) 0 in
              if enableUTC opts
              then Date_UTC host y m d h min sec
              else Date_local host y m d h min sec
          end in
        (assign (set_targetTimestamp targetDate) ;;
         (fun s1 =>
            assign (set_totalDuration
                      (Js.max (Num 0)
                         (Js.sub (targetTimestamp (this s1))
                                 (Num (startTimestamp (this s1)))))) s1))%method s
    end.

(** [format(n)] *)
Definition format (opts : Options) (n : number Z) : string :=
  if zeroPad opts
  then Js.padStart 2 "0"%char (Js.toString n)
  else Js.toString n.

(** [stop()] *)
Definition stop : Method :=
  fun s =>
    let s1 :=
      match intervalId (this s) with
      | Some id => (clearInterval id ;; assign (set_intervalId None))%method s
      | None => s
      end in
    assign (set_isPaused true) s1.

(** [if (node) node.innerText = text] *)
Definition setInnerText (node : option Node) (text : string) : list Event :=
  match node with
  | Some n => [SetInnerText n text]
  | None => []
  end.

(** The body of the [forEach] over [this.elements]. *)
Definition renderElement (opts : Options) (data : individualTimeData)
    (el : Element) : list Event :=
  let elDays := querySelector host el (daysSelector opts) in
  let elHours := querySelector host el (hoursSelector opts) in
  let elMin := querySelector host el (minutesSelector opts) in
  let elSec := querySelector host el (secondsSelector opts) in
  setInnerText elDays (format opts (d_days data)) ++
  setInnerText elHours (format opts (d_hours data)) ++
  setInnerText elMin (format opts (d_minutes data)) ++
  setInnerText elSec (format opts (d_seconds data)).

(** [Math.max(0, this.targetTimestamp - now)], the [timeLeft] of [tick]. *)
Definition timeLeftAt (c : RobustCountdown) (now : Z) : number Z :=
  Js.max (Num 0) (Js.sub (targetTimestamp c) (Num now)).

(** The time calculations of [tick]. *)
Definition timeData (timeLeft : number Z) : individualTimeData :=
  {| d_days := Js.floor_div timeLeft msPerDay;
     d_hours := Js.floor_div (Js.rem timeLeft msPerDay) msPerHour;
     d_minutes := Js.floor_div (Js.rem timeLeft msPerHour) msPerMinute;
     d_seconds := Js.floor_div (Js.rem timeLeft msPerMinute) msPerSecond |}.

(** The global progress calculation of [tick]. *)
Definition globalProgress (c : RobustCountdown) (now : Z) : number Q :=
  if Js.gtb (totalDuration c) (Num 0)
  then
    let elapsed := Js.sub (Num now) (Num (startTimestamp c)) in
    Js.minQ (Num 1%Q)
      (Js.maxQ (Num 0%Q) (Js.div (Js.toQ elapsed) (Js.toQ (totalDuration c))))
  else Num 1%Q.

(** The progress object of [tick]. *)
Definition progressOf (c : RobustCountdown) (now : Z)
    (data : individualTimeData) : progressObject :=
  {| total := globalProgress c now;
     r_days :=
       if Js.gtb (totalDuration c) (Num 0)
       then Js.div (Js.toQ (d_days data))
              (Js.div (Js.toQ (totalDuration c)) (Num (inject_Z msPerDay)))
       else Num 0%Q;
     r_hours := Js.div (Js.toQ (d_hours data)) (Num 24%Q);
     r_minutes := Js.div (Js.toQ (d_minutes data)) (Num 60%Q);
     r_seconds := Js.div (Js.toQ (d_seconds data)) (Num 60%Q) |}.

(** [tick()]; [now] is the clock read after the pause gate. *)
Definition tick (now : Z) : Method :=
  fun s =>
    if isPaused (this s) then s
    else
      let c := this s in
      let opts := options c in
      let timeLeft := timeLeftAt c now in
      let data := timeData timeLeft in
      let progress := progressOf c now data in
      (* DOM updates *)
      let s1 := emits (flat_map (renderElement opts data) (elements c)) s in
      (* Callback: update *)
      let s2 :=
        match on_update (on opts) with
        | Some f => emit (OnUpdate f progress timeLeft data) s1
        | None => s1
        end in
      (* Finish check *)
      if Js.leb timeLeft (Num 0)
      then
        let s3 := stop s2 in
        match on_finish (on (options (this s3))) with
        | Some f => emit (OnFinish f) s3
        | None => s3
        end
      else s2.

(** [start()]; [now] is the clock read by its synchronous tick. *)
Definition start (now : Z) : Method :=
  (assign (set_isPaused false) ;;
   tick now ;;
   (fun s => match intervalId (this s) with
             | Some id => clearInterval id s
             | None => s
             end) ;;
   setInterval 1000)%method.

(** [pause()] *)
Definition pause (now : Z) : Method :=
  (assign (set_isPaused true) ;;
   assign (set_pauseStart now))%method.

(** [resume()]; [now] is the clock read by the shift (read only under
    pause-freeze), [nowTick] the one read by the tick of [start]. *)
Definition resume (now nowTick : Z) : Method :=
  fun s =>
    if negb (isPaused (this s)) then s
    else
      let opts := options (this s) in
      let s1 :=
        match relativeDuration opts with
        | Some _ =>
            if disableOnPause (timer opts)
            then
              let pauseDuration := now - pauseStart (this s) in
              (assign (fun c => set_targetTimestamp
                                  (Js.add (targetTimestamp c) (Num pauseDuration)) c) ;;
               assign (fun c => set_startTimestamp
                                  (startTimestamp c + pauseDuration) c))%method s
            else s
        | None => s
        end in
      start nowTick s1.

(** [restart()] *)
Definition restart (t nowTick : Z) : Method :=
  (stop ;; calculateTarget t ;; start nowTick)%method.

(** [update(newOptions)] *)
Definition update (newOptions : PartialOptions) (t nowTick : Z) : Method :=
  (assign (fun c => set_options (mergeOptions (options c) newOptions) c) ;;
   restart t nowTick)%method.

(** [init()] *)
Definition init (t nowTick : Z) : Method :=
  (calculateTarget t ;; start nowTick)%method.

(** What [new RobustCountdown(selector, options)] leaves behind. *)
Inductive Constructed : Type :=
| Inert (b : Browser)    (* the early return: only [elements], empty, is set *)
| Live (s : System).

(** The message of the [console.error] of the constructor. *)
Definition noElementsMessage (selector : string) : string :=
  ("RobustCountdown: No elements found for selector "
     ++ dquote ++ selector ++ dquote)%string.

(** The constructor; [tYear] is the clock read for the default year,
    [t] the one read by [calculateTarget], [nowTick] the one read by the
    tick of [start]. *)
Definition construct (selector : string) (opts : PartialOptions)
    (tYear t nowTick : Z) (b : Browser) : Constructed :=
  let els := querySelectorAll host selector in
  match els with
  | [] => Inert (record [ConsoleError (noElementsMessage selector)] b)
  | _ :: _ =>
      Live (init t nowTick
              {| this := {| elements := els;
                            options := mergeOptions (defaults (getFullYear host tYear)) opts;
                            intervalId := None;
                            isPaused := false;
                            pauseStart := 0;
                            targetTimestamp := Num 0;
                            startTimestamp := 0;
                            totalDuration := Num 0 |};
                 browser := b |})
  end.

End Engine.

(** ** Calls made on a live instance *)

(** One call on the instance, with the clock readings it makes.  [Tick]
    is a delivery of the interval callback. *)
Inductive Op : Type :=
| Tick (now : Z)
| Start (now : Z)
| Pause (now : Z)
| Resume (now nowTick : Z)
| Stop
| Restart (t nowTick : Z)
| Update (newOptions : PartialOptions) (t nowTick : Z).

Definition step (host : Host) (op : Op) : Method :=
  match op with
  | Tick now => tick host now
  | Start now => start host now
  | Pause now => pause now
  | Resume now nowTick => resume host now nowTick
  | Stop => stop
  | Restart t nowTick => restart host t nowTick
  | Update o t nowTick => update host o t nowTick
  end.

Fixpoint run (host : Host) (ops : list Op) (s : System) : System :=
  match ops with
  | [] => s
  | op :: rest => run host rest (step host op s)
  end.

(** The calls that go through [calculateTarget]. *)
Definition recomputes (op : Op) : bool :=
  match op with
  | Restart _ _ | Update _ _ _ => true
  | _ => false
  end.

(** The calls that go through [start]. *)
Definition starts (op : Op) : bool :=
  match op with
  | Start _ | Resume _ _ | Restart _ _ | Update _ _ _ => true
  | _ => false
  end.

(** The [on.finish] invocations of a trace, in order. *)
Definition finishes (l : list Event) : list Callback :=
  flat_map (fun e => match e with OnFinish f => [f] | _ => [] end) l.

(** The [on.update] invocations of a trace, in order. *)
Definition updates (l : list Event) : list Callback :=
  flat_map (fun e => match e with OnUpdate f _ _ _ => [f] | _ => [] end) l.

(** ** The rule of target computation, as the specification words it *)

(** [TargetRule host opts t target total]: computing the target at clock
    reading [t] under configuration [opts] applies one of three rules, in
    priority order.  A duration is configured when it is neither [null]
    nor [0]; a legacy string when it is neither [null] nor empty. *)
Inductive TargetRule (host : Host) (opts : Options) (t : Z) :
    number Z -> number Z -> Prop :=
| Rule_relative (d : Z) :
    duration (timer opts) = Some d -> d <> 0 ->
    TargetRule host opts t (Num (t + d)) (Num d)
| Rule_legacy (str : string) :
    (duration (timer opts) = None \/ duration (timer opts) = Some 0) ->
    targetTime opts = Some str -> str <> EmptyString ->
    TargetRule host opts t (Date_parse host str)
      (Js.max (Num 0) (Js.sub (Date_parse host str) (Num t)))
| Rule_granular (instant : number Z) :
    (duration (timer opts) = None \/ duration (timer opts) = Some 0) ->
    (targetTime opts = None \/ targetTime opts = Some EmptyString) ->
    instant =
      (let build := if enableUTC opts then Date_UTC host else Date_local host in
       build (year opts) (orElse (month opts) 1 - 1) (orElse (day opts) 1)
             (orElse (hours opts) 0) (orElse (minutes opts) 0)
             (orElse (seconds opts) 0)) ->
    TargetRule host opts t instant (Js.max (Num 0) (Js.sub instant (Num t))).

(** [clamp(q, 0, 1)] *)
Definition clamp01 (q : Q) : Q :=
  if Qlt_le_dec q 0 then 0%Q
  else if Qlt_le_dec 1 q then 1%Q
  else q.

(** ** A concrete browser, for running the engine

    A document with one wrapper, [#timer], holding the four default
    display elements; a [Date] whose local zone is UTC (proleptic
    Gregorian calendar) and whose parser accepts one string. *)

Module Sample.

Definition daysFromCivil (y m d : Z) : Z :=
  let y' := if m <=? 2 then y - 1 else y in
  let era := y' / 400 in
  let yoe := y' - era * 400 in
  let mp := (m + 9) mod 12 in
  let doy := (153 * mp + 2) / 5 + d - 1 in
  let doe := yoe * 365 + yoe / 4 - yoe / 100 + doy in
  era * 146097 + doe - 719468.

Definition utc (y m d h min s : Z) : number Z :=
  let days := daysFromCivil (y + m / 12) (m mod 12 + 1) d in
  Num (days * msPerDay + h * msPerHour + min * msPerMinute + s * msPerSecond).

Definition yearOf (t : Z) : Z :=
  let z := t / msPerDay + 719468 in
  let era := z / 146097 in
  let doe := z - era * 146097 in
  let yoe := (doe - doe / 1460 + doe / 36524 - doe / 146096) / 365 in
  let doy := doe - (365 * yoe + yoe / 4 - yoe / 100) in
  let mp := (5 * doy + 2) / 153 in
  yoe + era * 400 + (if mp <? 10 then 0 else 1).

Definition host : Host :=
  {| querySelectorAll := fun sel =>
       if String.eqb sel "#timer" then [1%nat] else [];
     querySelector := fun _ sel =>
       if String.eqb sel (typeSelector "days") then Some 11%nat
       else if String.eqb sel (typeSelector "hours") then Some 12%nat
       else if String.eqb sel (typeSelector "minutes") then Some 13%nat
       else if String.eqb sel (typeSelector "seconds") then Some 14%nat
       else None;
     Date_parse := fun str =>
       if String.eqb str "2030-01-01T00:00:00Z" then utc 2030 0 1 0 0 0 else NaN;
     Date_UTC := utc;
     Date_local := utc;
     getFullYear := yearOf |}.

(** A browser with no timer registered and an empty trace. *)
Definition blank : Browser :=
  {| timers := []; nextTimer := 1%positive; log := [] |}.

(** The options object [{}]. *)
Definition noOptions : PartialOptions :=
  {| p_year := None; p_month := None; p_day := None; p_hours := None;
     p_minutes := None; p_seconds := None; p_enableUTC := None;
     p_targetTime := None; p_timer := None; p_zeroPad := None;
     p_daysSelector := None; p_hoursSelector := None;
     p_minutesSelector := None; p_secondsSelector := None; p_on := None |}.

(** [{ timer: { duration: d, disableOnPause: freeze },
       on: { update: 7, finish: 8 } }] *)
Definition relativeOptions (d : Z) (freeze : bool) : PartialOptions :=
  {| p_year := None; p_month := None; p_day := None; p_hours := None;
     p_minutes := None; p_seconds := None; p_enableUTC := None;
     p_targetTime := None;
     p_timer := Some {| p_duration := Some (Some d);
                        p_disableOnPause := Some freeze |};
     p_zeroPad := None;
     p_daysSelector := None; p_hoursSelector := None;
     p_minutesSelector := None; p_secondsSelector := None;
     p_on := Some {| p_on_update := Some (Some 7%nat);
                     p_on_finish := Some (Some 8%nat) |} |}.

(** [{ year: y, month: m, enableUTC: true, on: { finish: 8 } }] *)
Definition dateOptions (y m : Z) : PartialOptions :=
  {| p_year := Some y; p_month := Some m; p_day := None; p_hours := None;
     p_minutes := None; p_seconds := None; p_enableUTC := Some true;
     p_targetTime := None; p_timer := None; p_zeroPad := None;
     p_daysSelector := None; p_hoursSelector := None;
     p_minutesSelector := None; p_secondsSelector := None;
     p_on := Some {| p_on_update := None;
                     p_on_finish := Some (Some 8%nat) |} |}.

(** The system left by [new RobustCountdown("#timer", opts)] at clock
    reading [t] in the blank browser. *)
Definition fresh (opts : PartialOptions) (t : Z) : System :=
  match construct host "#timer" opts t t t blank with
  | Live s => s
  | Inert b =>
      {| this := {| elements := []; options := defaults 0; intervalId := None;
                    isPaused := true; pauseStart := 0; targetTimestamp := NaN;
                    startTimestamp := 0; totalDuration := NaN |};
         browser := b |}
  end.

End Sample.


(** ** The trace of one processed tick *)

(** What a processed tick at [now] writes to the document and reports to
    [on.update], for an instance in state [c]. *)
Definition tickOutput (host : Host) (c : RobustCountdown) (now : Z) : list Event :=
  let timeLeft := timeLeftAt c now in
  let data := timeData timeLeft in
  flat_map (renderElement host (options c) data) (elements c) ++
  match on_update (on (options c)) with
  | Some f => [OnUpdate f (progressOf c now data) timeLeft data]
  | None => []
  end.

(** What the finish check of a tick adds once [timeLeft <= 0]. *)
Definition finishOutput (c : RobustCountdown) : list Event :=
  match intervalId c with
  | Some id => [ClearInterval id]
  | None => []
  end ++
  match on_finish (on (options c)) with
  | Some f => [OnFinish f]
  | None => []
  end.

(** The registrations of a trace. *)
Definition registrations (l : list Event) : list TimerId :=
  flat_map (fun e => match e with SetInterval id _ => [id] | _ => [] end) l.

(** Removing a handle from the table of live registrations. *)
Definition release (id : option TimerId) (ts : list TimerId) : list TimerId :=
  match id with
  | Some i => List.filter (fun j => negb (Pos.eqb j i)) ts
  | None => ts
  end.

(** ** Views of the instance state *)

(** The three fields of the timing window. *)
Definition timing (c : RobustCountdown) : number Z * Z * number Z :=
  (targetTimestamp c, startTimestamp c, totalDuration c).

(** What no method but the constructor and [update] writes. *)
Definition setup (c : RobustCountdown) : list Element * Options :=
  (elements c, options c).

(** ** One tick, then the registration *)

(** What the tick run by [start()] puts out at clock reading [now], for
    an instance with the configuration and the window of [c], written
    out: for each wrapper element in order, the text of each unit whose
    slot resolves -- days, hours, minutes, seconds -- and then the
    [on.update] call, if one is configured. *)
Definition immediateOutput (host : Host) (c : RobustCountdown) (now : Z) : list Event :=
  let opts := options c in
  let timeLeft := Js.max (Num 0) (Js.sub (targetTimestamp c) (Num now)) in
  let data := timeData timeLeft in
  flat_map
    (fun el =>
       match querySelector host el (daysSelector opts) with
       | Some n => [SetInnerText n (format opts (d_days data))]
       | None => []
       end ++
       match querySelector host el (hoursSelector opts) with
       | Some n => [SetInnerText n (format opts (d_hours data))]
       | None => []
       end ++
       match querySelector host el (minutesSelector opts) with
       | Some n => [SetInnerText n (format opts (d_minutes data))]
       | None => []
       end ++
       match querySelector host el (secondsSelector opts) with
       | Some n => [SetInnerText n (format opts (d_seconds data))]
       | None => []
       end)
    (elements c) ++
  match on_update (on opts) with
  | Some f => [OnUpdate f (progressOf c now data) timeLeft data]
  | None => []
  end.

(** The release of a registration, if one is held. *)
Definition clears (id : option TimerId) : list Event :=
  match id with
  | Some i => [ClearInterval i]
  | None => []
  end.

(** The [on.finish] call of a tick at [now]: made when no time is left
    and a callback is configured. *)
Definition finishCall (c : RobustCountdown) (now : Z) : list Event :=
  if Js.leb (Js.max (Num 0) (Js.sub (targetTimestamp c) (Num now))) (Num 0)
  then match on_finish (on (options c)) with
       | Some f => [OnFinish f]
       | None => []
       end
  else [].

(** The clock reading of the tick a call runs through [start()]. *)
Definition tickReading (op : Op) : Z :=
  match op with
  | Start now => now
  | Resume _ nowTick => nowTick
  | Restart _ nowTick => nowTick
  | Update _ _ nowTick => nowTick
  | Tick _ | Pause _ | Stop => 0
  end.

(** [StartedAt host before pre post now s']: since the browser was
    [before], the trace of [s'] has grown by exactly this, in this order:
    [pre]; the output of one tick at clock reading [now] -- the rendering
    of every resolved slot, then [on.update]; [post]; the [on.finish] call
    if that tick found no time left; and last the one [setInterval] of
    period 1000 ms, whose handle the instance holds and which is live. *)
Definition StartedAt (host : Host) (before : Browser) (pre post : list Event)
    (now : Z) (s' : System) : Prop :=
  log (browser s') =
    log before ++ pre ++ immediateOutput host (this s') now ++ post
      ++ finishCall (this s') now ++ [SetInterval (nextTimer before) 1000] /\
  intervalId (this s') = Some (nextTimer before) /\
  In (nextTimer before) (timers (browser s')).

(** ** Non-negative durations *)

(** A number that is not negative: [NaN], or an integer [>= 0]. *)
Definition notNegative (x : number Z) : Prop :=
  match x with
  | NaN => True
  | Num z => 0 <= z
  end.

(** The configured duration, if any, is not negative. *)
Definition durationNotNegative (t : TimerOptions) : Prop :=
  match duration t with
  | Some d => 0 <= d
  | None => True
  end.

(** The duration a caller passes, if any, is not negative. *)
Definition passesNoNegativeDuration (o : PartialOptions) : Prop :=
  match p_timer o with
  | Some t =>
      match p_duration t with
      | Some (Some d) => 0 <= d
      | _ => True
      end
  | None => True
  end.

Definition opPassesNoNegativeDuration (op : Op) : Prop :=
  match op with
  | Update o _ _ => passesNoNegativeDuration o
  | _ => True
  end.

(** ** Invariants of a constructed instance *)

(** The timing window agrees with the configuration: a relative timer
    spans exactly its duration; a date timer has the clamped distance
    from start to target as its total duration. *)
Definition WindowKept (c : RobustCountdown) : Prop :=
  match relativeDuration (options c) with
  | Some d =>
      targetTimestamp c = Num (startTimestamp c + d) /\
      totalDuration c = Num d
  | None =>
      totalDuration c =
        Js.max (Num 0) (Js.sub (targetTimestamp c) (Num (startTimestamp c)))
  end.

(** The registration the instance holds, as a list. *)
Definition held (c : RobustCountdown) : list TimerId :=
  match intervalId c with
  | Some id => [id]
  | None => []
  end.

(** The live registrations are the one the instance holds, if any, and
    the [others], which were there before it was constructed (their
    handles are below [lo], the first handle the instance was given). *)
Definition OwnsItsTimer (others : list TimerId) (lo : TimerId) (s : System) : Prop :=
  timers (browser s) = held (this s) ++ others /\
  Forall (fun i => (i < lo)%positive) others /\
  (forall id, intervalId (this s) = Some id ->
     (lo <= id)%positive /\ (id < nextTimer (browser s))%positive) /\
  (lo <= nextTimer (browser s))%positive.

(** ** A caller: [addOneMinute] of [public/js/script.js] *)

(** The global variable [relativeInstance]. *)
Inductive Global : Type :=
| Undefined
| Holds (i : Constructed).

(** The object [{ timer: { duration: d } }]. *)
Definition durationOnly (d : Z) : PartialOptions :=
  {| p_year := None; p_month := None; p_day := None; p_hours := None;
     p_minutes := None; p_seconds := None; p_enableUTC := None;
     p_targetTime := None;
     p_timer := Some {| p_duration := Some (Some d); p_disableOnPause := None |};
     p_zeroPad := None;
     p_daysSelector := None; p_hoursSelector := None;
     p_minutesSelector := None; p_secondsSelector := None;
     p_on := None |}.

(** [addOneMinute()].  [status] is what
    [document.getElementById("relative-status")] returns; [t] and
    [nowTick] are the clock readings of the [update].  The result is
    [None] when the call throws: an instance constructed on no element
    has no [options]. *)
Definition addOneMinute (host : Host) (status : option Node) (t nowTick : Z)
    (relativeInstance : Global) : option Global :=
  match relativeInstance with
  | Undefined => Some Undefined
  | Holds (Inert _) => None
  | Holds (Live s) =>
      let currentDuration :=
        match duration (timer (options (this s))) with
        | Some d => orElse d 0
        | None => 0
        end in
      let s1 := update host (durationOnly (currentDuration + 60 * 1000)) t nowTick s in
      Some (Holds (Live (emits (setInnerText status "Added 1 Minute!") s1)))
  end.

(** ** Sample instances *)

(** A 60 s timer with pause-freeze, constructed at clock 0 in the sample
    document. *)
Definition minuteTimer : System :=
  Sample.fresh (Sample.relativeOptions 60000 true) 0.

(** A countdown to 1 January 2030 UTC, constructed five seconds before. *)
Definition newYearTimer : System :=
  Sample.fresh (Sample.dateOptions 2030 1) 1893455995000.

(** What [on.update] is handed by a tick at [now] of an instance in state
    [c], as an event. *)
Definition updateAt (f : Callback) (c : RobustCountdown) (now : Z) : Event :=
  OnUpdate f (progressOf c now (timeData (timeLeftAt c now)))
    (timeLeftAt c now) (timeData (timeLeftAt c now)).

(** A three-day timer, constructed at clock 0 in the sample document. *)
Definition threeDayTimer : System :=
  Sample.fresh (Sample.relativeOptions 259200000 true) 0.

(** The 60 s timer, time running during pauses. *)
Definition runningMinuteTimer : System :=
  Sample.fresh (Sample.relativeOptions 60000 false) 0.

(** * Properties *)

(** ** Arithmetic of the time decomposition *)

Lemma rem_nonneg (a k : Z) : 0 <= a -> 0 < k -> Z.rem a k = a mod k.
Proof. intros Ha Hk. apply Z.rem_mod_nonneg; lia. Qed.

Lemma timeData_Num (tl : Z) :
  0 <= tl ->
  timeData (Num tl) =
  {| d_days := Num (tl / msPerDay);
     d_hours := Num ((tl mod msPerDay) / msPerHour);
     d_minutes := Num ((tl mod msPerHour) / msPerMinute);
     d_seconds := Num ((tl mod msPerMinute) / msPerSecond) |}.
Proof.
  intros Htl. unfold timeData, Js.floor_div, Js.rem.
  rewrite !rem_nonneg by (assumption || reflexivity).
  reflexivity.
Qed.

(** The [timeLeft] of a tick is [NaN] or an integer [>= 0]. *)
Lemma timeLeftAt_notNegative (c : RobustCountdown) (now : Z) :
  notNegative (timeLeftAt c now).
Proof.
  unfold timeLeftAt. destruct (targetTimestamp c) as [| x]; cbn; [ exact I | lia ].
Qed.

(** C2.  For every non-negative [timeLeft], the days, hours, minutes and
    seconds computed by [tick] are integers with
    [days*86400000 + hours*3600000 + minutes*60000 + seconds*1000
     <= timeLeft < days*86400000 + hours*3600000 + minutes*60000
     + (seconds+1)*1000], hours in [0,24), minutes and seconds in
    [0,60), and days only bounded below by 0. *)
Theorem timeData_decomposition (timeLeft : Z) :
  0 <= timeLeft ->
  exists days hours minutes seconds : Z,
    timeData (Num timeLeft) =
      {| d_days := Num days; d_hours := Num hours;
         d_minutes := Num minutes; d_seconds := Num seconds |} /\
    days * 86400000 + hours * 3600000 + minutes * 60000 + seconds * 1000
      <= timeLeft
      < days * 86400000 + hours * 3600000 + minutes * 60000 + (seconds + 1) * 1000 /\
    0 <= days /\ 0 <= hours < 24 /\ 0 <= minutes < 60 /\ 0 <= seconds < 60.
Proof.
  intros Htl.
  exists (timeLeft / msPerDay), ((timeLeft mod msPerDay) / msPerHour),
         ((timeLeft mod msPerHour) / msPerMinute),
         ((timeLeft mod msPerMinute) / msPerSecond).
  split; [ now apply timeData_Num | ].
  unfold msPerDay, msPerHour, msPerMinute, msPerSecond.
  change (1000 * 60 * 60 * 24) with 86400000.
  change (1000 * 60 * 60) with 3600000.
  change (1000 * 60) with 60000.
  Z.to_euclidean_division_equations. lia.
Qed.

(** The decomposition of 93784005 ms: 1 day, 2 hours, 3 minutes, 4 seconds. *)
Lemma timeData_decomposition_witness :
  0 <= 93784005 /\
  exists days hours minutes seconds : Z,
    timeData (Num 93784005) =
      {| d_days := Num days; d_hours := Num hours;
         d_minutes := Num minutes; d_seconds := Num seconds |} /\
    days * 86400000 + hours * 3600000 + minutes * 60000 + seconds * 1000
      <= 93784005
      < days * 86400000 + hours * 3600000 + minutes * 60000 + (seconds + 1) * 1000 /\
    0 <= days /\ 0 <= hours < 24 /\ 0 <= minutes < 60 /\ 0 <= seconds < 60.
Proof.
  split; [ lia | apply (timeData_decomposition 93784005); lia ].
Defined.

(** ** How each method acts *)

Lemma record_record (es1 es2 : list Event) (b : Browser) :
  record es2 (record es1 b) = record (es1 ++ es2) b.
Proof. unfold record; simpl. now rewrite app_assoc. Qed.

Lemma stop_spec (s : System) :
  stop s =
  {| this := set_isPaused true (set_intervalId None (this s));
     browser :=
       {| timers := release (intervalId (this s)) (timers (browser s));
          nextTimer := nextTimer (browser s);
          log := log (browser s) ++
                 match intervalId (this s) with
                 | Some id => [ClearInterval id]
                 | None => []
                 end |} |}.
Proof.
  destruct s as [c b]. unfold stop; simpl.
  destruct c as [els o iid p ps tt st td]; simpl.
  destruct iid as [id|]; simpl.
  - reflexivity.
  - unfold assign; simpl. destruct b; simpl. now rewrite app_nil_r.
Qed.

Lemma tick_paused (host : Host) (now : Z) (s : System) :
  isPaused (this s) = true -> tick host now s = s.
Proof. intros H. unfold tick. now rewrite H. Qed.

Lemma tick_running (host : Host) (now : Z) (s : System) :
  isPaused (this s) = false ->
  Js.leb (timeLeftAt (this s) now) (Num 0) = false ->
  tick host now s =
  {| this := this s;
     browser := record (tickOutput host (this s) now) (browser s) |}.
Proof.
  intros Hp Hl. unfold tick. rewrite Hp, Hl. unfold tickOutput.
  destruct (on_update (on (options (this s)))); unfold emit, emits; simpl.
  - now rewrite record_record.
  - now rewrite app_nil_r.
Qed.

Lemma tick_finishing (host : Host) (now : Z) (s : System) :
  isPaused (this s) = false ->
  Js.leb (timeLeftAt (this s) now) (Num 0) = true ->
  tick host now s =
  {| this := set_isPaused true (set_intervalId None (this s));
     browser :=
       {| timers := release (intervalId (this s)) (timers (browser s));
          nextTimer := nextTimer (browser s);
          log := log (browser s) ++ tickOutput host (this s) now
                   ++ finishOutput (this s) |} |}.
Proof.
  intros Hp Hl. unfold tick. rewrite Hp, Hl, stop_spec.
  unfold tickOutput, finishOutput.
  destruct s as [c b]; cbn [this browser].
  destruct (on_update (on (options c)));
    cbn [emit emits record this browser set_isPaused set_intervalId options
         timers nextTimer log intervalId];
    destruct (on_finish (on (options c)));
    unfold emit, record; cbn [this browser timers nextTimer log];
    rewrite ?app_nil_r, <- ?app_assoc; reflexivity.
Qed.

(** ** Target computation *)

Lemma relativeDuration_Some (opts : Options) (d : Z) :
  relativeDuration opts = Some d <-> duration (timer opts) = Some d /\ d <> 0.
Proof.
  unfold relativeDuration. destruct (duration (timer opts)) as [x|].
  - destruct (Z.eqb_spec x 0); split.
    + discriminate.
    + intros [E N]. injection E as ->. contradiction.
    + intros E. injection E as ->. auto.
    + intros [E _]. exact E.
  - split; [ discriminate | intros [E _]; discriminate ].
Qed.

Lemma relativeDuration_None (opts : Options) :
  relativeDuration opts = None <->
  duration (timer opts) = None \/ duration (timer opts) = Some 0.
Proof.
  unfold relativeDuration. destruct (duration (timer opts)) as [x|].
  - destruct (Z.eqb_spec x 0); split.
    + subst; auto.
    + reflexivity.
    + discriminate.
    + intros [E|E]; [ discriminate | injection E as ->; contradiction ].
  - split; auto.
Qed.

Lemma legacyTarget_Some (opts : Options) (str : string) :
  legacyTarget opts = Some str <->
  targetTime opts = Some str /\ str <> EmptyString.
Proof.
  unfold legacyTarget. destruct (targetTime opts) as [x|].
  - destruct (String.eqb_spec x EmptyString); split.
    + discriminate.
    + intros [E N]. injection E as ->. contradiction.
    + intros E. injection E as ->. auto.
    + intros [E _]. exact E.
  - split; [ discriminate | intros [E _]; discriminate ].
Qed.

Lemma legacyTarget_None (opts : Options) :
  legacyTarget opts = None <->
  targetTime opts = None \/ targetTime opts = Some EmptyString.
Proof.
  unfold legacyTarget. destruct (targetTime opts) as [x|].
  - destruct (String.eqb_spec x EmptyString); split.
    + subst; auto.
    + reflexivity.
    + discriminate.
    + intros [E|E]; [ discriminate | injection E as ->; contradiction ].
  - split; auto.
Qed.

(** The granular instant [calculateTarget] builds. *)
Lemma calculateTarget_fields (host : Host) (t : Z) (s : System) :
  let s' := calculateTarget host t s in
  let opts := options (this s) in
  startTimestamp (this s') = t /\
  options (this s') = opts /\
  elements (this s') = elements (this s) /\
  intervalId (this s') = intervalId (this s) /\
  isPaused (this s') = isPaused (this s) /\
  pauseStart (this s') = pauseStart (this s) /\
  browser s' = browser s.
Proof.
  unfold calculateTarget. cbn zeta.
  cbn [assign this options set_startTimestamp].
  destruct (relativeDuration (options (this s))); cbn; repeat split; reflexivity.
Qed.

Lemma calculateTarget_relative (host : Host) (t : Z) (s : System) (d : Z) :
  relativeDuration (options (this s)) = Some d ->
  targetTimestamp (this (calculateTarget host t s)) = Num (t + d) /\
  totalDuration (this (calculateTarget host t s)) = Num d.
Proof.
  intros H. unfold calculateTarget. cbn zeta.
  cbn [assign this options set_startTimestamp]. rewrite H. cbn. auto.
Qed.

Lemma calculateTarget_absolute (host : Host) (t : Z) (s : System) :
  relativeDuration (options (this s)) = None ->
  let opts := options (this s) in
  let instant :=
    match legacyTarget opts with
    | Some str => Date_parse host str
    | None =>
        (if enableUTC opts then Date_UTC host else Date_local host)
          (year opts) (orElse (month opts) 1 - 1) (orElse (day opts) 1)
          (orElse (hours opts) 0) (orElse (minutes opts) 0)
          (orElse (seconds opts) 0)
    end in
  targetTimestamp (this (calculateTarget host t s)) = instant /\
  totalDuration (this (calculateTarget host t s)) =
    Js.max (Num 0) (Js.sub instant (Num t)).
Proof.
  intros H. unfold calculateTarget. cbn zeta.
  cbn [assign this options set_startTimestamp]. rewrite H.
  destruct (legacyTarget (options (this s))); cbn.
  - auto.
  - destruct (enableUTC (options (this s))); auto.
Qed.

(** The pair [calculateTarget] leaves is the one the rule allows, and
    the rule allows no other. *)
Lemma calculateTarget_meets_rule (host : Host) (t : Z) (s : System)
    (target total : number Z) :
  TargetRule host (options (this s)) t target total <->
  target = targetTimestamp (this (calculateTarget host t s)) /\
  total = totalDuration (this (calculateTarget host t s)).
Proof.
  split.
  - intros R. destruct R as [d Hd Hn | str Hd Ht Hn | instant Hd Ht Hi].
    + assert (Hr : relativeDuration (options (this s)) = Some d)
        by (apply relativeDuration_Some; auto).
      destruct (calculateTarget_relative host t s d Hr) as [-> ->]. auto.
    + apply relativeDuration_None in Hd.
      assert (Hl : legacyTarget (options (this s)) = Some str)
        by (apply legacyTarget_Some; auto).
      destruct (calculateTarget_absolute host t s Hd) as [E1 E2].
      cbn zeta in E1, E2. rewrite Hl in E1, E2. rewrite E1, E2. auto.
    + apply relativeDuration_None in Hd. apply legacyTarget_None in Ht.
      destruct (calculateTarget_absolute host t s Hd) as [E1 E2].
      cbn zeta in E1, E2. rewrite Ht in E1, E2. rewrite E1, E2.
      subst instant. auto.
  - intros [-> ->].
    destruct (relativeDuration (options (this s))) as [d|] eqn:Hr.
    + destruct (calculateTarget_relative host t s d Hr) as [-> ->].
      apply relativeDuration_Some in Hr. destruct Hr as [Hd Hn].
      now apply Rule_relative.
    + destruct (calculateTarget_absolute host t s Hr) as [E1 E2].
      cbn zeta in E1, E2. rewrite E1, E2.
      apply relativeDuration_None in Hr.
      destruct (legacyTarget (options (this s))) as [str|] eqn:Hl.
      * apply legacyTarget_Some in Hl. destruct Hl as [Ht Hn].
        now apply Rule_legacy.
      * apply legacyTarget_None in Hl. now apply Rule_granular.
Qed.

(** C1.  Target computation applies exactly one rule, in priority order:
    a configured (non-null, non-zero) relative duration gives
    [targetTimestamp = startTimestamp + duration] and
    [totalDuration = duration] whatever the legacy string and the
    granular fields hold; otherwise a configured legacy string is parsed
    to the target instant; otherwise the instant is built from the
    granular fields, the 1-indexed month turned into a 0-indexed one, as
    UTC exactly when the UTC flag is set.  The pair
    [(targetTimestamp, totalDuration)] the code leaves is the only pair
    the rule allows, and [startTimestamp] is the clock reading. *)
Theorem calculateTarget_applies_one_rule (host : Host) (t : Z) (s : System)
    (target total : number Z) :
  let s' := calculateTarget host t s in
  (TargetRule host (options (this s)) t target total <->
   target = targetTimestamp (this s') /\ total = totalDuration (this s')) /\
  startTimestamp (this s') = t /\
  (month (options (this s)) <> 0 ->
   orElse (month (options (this s))) 1 - 1 = month (options (this s)) - 1).
Proof.
  cbn zeta. split; [ | split ].
  - apply calculateTarget_meets_rule.
  - apply calculateTarget_fields.
  - intros Hm. unfold orElse. destruct (Z.eqb_spec (month (options (this s))) 0).
    + contradiction.
    + reflexivity.
Qed.

(** ** Progress *)

Lemma clamp01_min_max (q : Q) : (Qmin 1 (Qmax 0 q) == clamp01 q)%Q.
Proof.
  unfold clamp01.
  destruct (Qlt_le_dec q 0) as [Hneg | Hnonneg].
  - rewrite (Q.max_l 0 q) by (apply Qlt_le_weak; exact Hneg).
    apply Q.min_r. discriminate.
  - rewrite (Q.max_r 0 q) by exact Hnonneg.
    destruct (Qlt_le_dec 1 q) as [Hbig | Hsmall].
    + apply Q.min_l. apply Qlt_le_weak; exact Hbig.
    + apply Q.min_r. exact Hsmall.
Qed.

Lemma clamp01_range (q : Q) : (0 <= clamp01 q /\ clamp01 q <= 1)%Q.
Proof.
  unfold clamp01.
  destruct (Qlt_le_dec q 0); [ split; discriminate | ].
  destruct (Qlt_le_dec 1 q); [ split; discriminate | ].
  split; assumption.
Qed.

Lemma globalProgress_positive (c : RobustCountdown) (now T : Z) :
  totalDuration c = Num T -> 0 < T ->
  globalProgress c now =
    Num (Qmin 1 (Qmax 0 (inject_Z (now - startTimestamp c) / inject_Z T))).
Proof.
  intros Ht Hpos. unfold globalProgress. rewrite Ht. cbn [Js.gtb].
  destruct (Z.ltb_spec 0 T); [ reflexivity | lia ].
Qed.

Lemma globalProgress_nonpositive (c : RobustCountdown) (now T : Z) :
  totalDuration c = Num T -> T <= 0 -> globalProgress c now = Num 1%Q.
Proof.
  intros Ht Hle. unfold globalProgress. rewrite Ht. cbn [Js.gtb].
  destruct (Z.ltb_spec 0 T); [ lia | reflexivity ].
Qed.

Lemma In_setInnerText (node : option Node) (text : string) (e : Event) :
  In e (setInnerText node text) -> exists n, e = SetInnerText n text.
Proof.
  destruct node as [n|]; simpl; [ | contradiction ].
  intros [<- | []]. now exists n.
Qed.

Lemma In_render (host : Host) (opts : Options) (data : individualTimeData)
    (els : list Element) (e : Event) :
  In e (flat_map (renderElement host opts data) els) ->
  exists n text, e = SetInnerText n text.
Proof.
  intros H. apply in_flat_map in H. destruct H as [el [_ H]].
  unfold renderElement in H.
  repeat (apply in_app_or in H; destruct H as [H | H]);
    apply In_setInnerText in H; destruct H as [n ->]; eauto.
Qed.

Lemma In_tickOutput_update (host : Host) (c : RobustCountdown) (now : Z)
    (f : Callback) (p : progressObject) (tl : number Z) (d : individualTimeData) :
  In (OnUpdate f p tl d) (tickOutput host c now) ->
  on_update (on (options c)) = Some f /\
  tl = timeLeftAt c now /\ d = timeData tl /\ p = progressOf c now d.
Proof.
  unfold tickOutput. intros H. apply in_app_or in H. destruct H as [H | H].
  - apply In_render in H. destruct H as [n [text H]]. discriminate.
  - destruct (on_update (on (options c))) as [g|]; simpl in H.
    + destruct H as [H | []]. injection H as -> <- <- <-. auto.
    + contradiction.
Qed.

Lemma In_finishOutput (c : RobustCountdown) (e : Event) :
  In e (finishOutput c) ->
  (exists id, e = ClearInterval id) \/ (exists f, e = OnFinish f).
Proof.
  unfold finishOutput. intros H. apply in_app_or in H. destruct H as [H | H].
  - destruct (intervalId c); simpl in H; [ | contradiction ].
    destruct H as [<- | []]. eauto.
  - destruct (on_finish (on (options c))); simpl in H; [ | contradiction ].
    destruct H as [<- | []]. eauto.
Qed.

(** The events a processed tick appends to the trace. *)
Lemma tick_log (host : Host) (now : Z) (s : System) :
  isPaused (this s) = false ->
  log (browser (tick host now s)) =
  log (browser s) ++ tickOutput host (this s) now ++
  (if Js.leb (timeLeftAt (this s) now) (Num 0)
   then finishOutput (this s) else []).
Proof.
  intros Hp. destruct (Js.leb (timeLeftAt (this s) now) (Num 0)) eqn:Hl.
  - now rewrite tick_finishing.
  - rewrite tick_running by assumption. simpl. now rewrite app_nil_r.
Qed.

(** C3.  On every processed tick the [progress.total] handed to
    [on.update] is [(now - startTimestamp) / totalDuration] clamped to
    [0, 1] when [totalDuration > 0], and 1 when [totalDuration <= 0]. *)
Theorem tick_progress_total (host : Host) (now : Z) (s : System) :
  isPaused (this s) = false ->
  exists added : list Event,
    log (browser (tick host now s)) = log (browser s) ++ added /\
    (forall f, on_update (on (options (this s))) = Some f ->
       exists p tl d, In (OnUpdate f p tl d) added) /\
    (forall f p tl d, In (OnUpdate f p tl d) added ->
       (forall T, totalDuration (this s) = Num T -> 0 < T ->
          exists q, total p = Num q /\
            (q == clamp01 (inject_Z (now - startTimestamp (this s)) / inject_Z T))%Q /\
            (0 <= q <= 1)%Q) /\
       (forall T, totalDuration (this s) = Num T -> T <= 0 ->
          total p = Num 1%Q)).
Proof.
  intros Hp. eexists. split; [ apply (tick_log host now s Hp) | ]. split.
  - intros f Hf. unfold tickOutput. rewrite Hf.
    do 3 eexists. apply in_or_app. left. apply in_or_app. right. left. reflexivity.
  - intros f p tl d Hin.
    assert (Hpr : p = progressOf (this s) now d).
    { apply in_app_or in Hin. destruct Hin as [Hin | Hin].
      - now apply In_tickOutput_update in Hin.
      - destruct (Js.leb (timeLeftAt (this s) now) (Num 0)); [ | contradiction ].
        apply In_finishOutput in Hin.
        destruct Hin as [[id Hin] | [g Hin]]; discriminate. }
    subst p. cbn [total progressOf]. split.
    + intros T Ht Hpos. eexists. split.
      * apply (globalProgress_positive _ now T Ht Hpos).
      * split.
        -- apply clamp01_min_max.
        -- rewrite clamp01_min_max. apply clamp01_range.
    + intros T Ht Hle. apply (globalProgress_nonpositive _ now T Ht Hle).
Qed.

(** ** Frame properties of the methods *)

(** Case analysis on a call, each case reduced to the method it runs. *)
Ltac op_cases op :=
  destruct op as [now | now | now | now nowTick | | t nowTick | o t nowTick];
  cbn [step].

Lemma stop_frame (s : System) :
  timing (this (stop s)) = timing (this s) /\
  setup (this (stop s)) = setup (this s) /\
  pauseStart (this (stop s)) = pauseStart (this s).
Proof. rewrite stop_spec. repeat split. Qed.

Lemma tick_frame (host : Host) (now : Z) (s : System) :
  timing (this (tick host now s)) = timing (this s) /\
  setup (this (tick host now s)) = setup (this s) /\
  pauseStart (this (tick host now s)) = pauseStart (this s).
Proof.
  destruct (isPaused (this s)) eqn:Hp.
  - rewrite tick_paused by assumption. repeat split.
  - destruct (Js.leb (timeLeftAt (this s) now) (Num 0)) eqn:Hl.
    + rewrite tick_finishing by assumption. repeat split.
    + rewrite tick_running by assumption. repeat split.
Qed.

Lemma start_unfold (host : Host) (now : Z) (s : System) :
  start host now s =
  let s1 := tick host now (assign (set_isPaused false) s) in
  setInterval 1000
    (match intervalId (this s1) with
     | Some id => clearInterval id s1
     | None => s1
     end).
Proof. reflexivity. Qed.

Lemma start_frame (host : Host) (now : Z) (s : System) :
  timing (this (start host now s)) = timing (this s) /\
  setup (this (start host now s)) = setup (this s) /\
  pauseStart (this (start host now s)) = pauseStart (this s).
Proof.
  rewrite start_unfold. cbn zeta.
  destruct (tick_frame host now (assign (set_isPaused false) s)) as [Ht [Hs Hp]].
  destruct (intervalId (this (tick host now (assign (set_isPaused false) s))));
    cbn [setInterval clearInterval this set_intervalId timing setup
         targetTimestamp startTimestamp totalDuration elements options pauseStart];
    repeat split;
    first [ exact Ht | exact Hs | exact Hp ].
Qed.

Lemma pause_frame (now : Z) (s : System) :
  timing (this (pause now s)) = timing (this s) /\
  setup (this (pause now s)) = setup (this s) /\
  browser (pause now s) = browser s.
Proof. repeat split. Qed.

Lemma ticks_while_paused (host : Host) (ticks : list Z) (s : System) :
  isPaused (this s) = true -> run host (map Tick ticks) s = s.
Proof.
  intros Hp. induction ticks as [| now ticks IH]; [ reflexivity | ].
  cbn [map run step]. now rewrite tick_paused.
Qed.

(** ** Starting *)

(** What [start()] appends between the output of its tick and the
    registration: the finish check of the tick if the countdown is over,
    else the release of the previous registration. *)
Lemma start_spec (host : Host) (now : Z) (s : System) :
  let c := set_isPaused false (this s) in
  let after :=
    if Js.leb (timeLeftAt c now) (Num 0) then finishOutput c
    else match intervalId c with
         | Some id => [ClearInterval id]
         | None => []
         end in
  log (browser (start host now s)) =
    log (browser s) ++ tickOutput host c now ++ after
      ++ [SetInterval (nextTimer (browser s)) 1000] /\
  intervalId (this (start host now s)) = Some (nextTimer (browser s)) /\
  timers (browser (start host now s)) =
    nextTimer (browser s) :: release (intervalId (this s)) (timers (browser s)) /\
  nextTimer (browser (start host now s)) = Pos.succ (nextTimer (browser s)) /\
  isPaused (this (start host now s)) = Js.leb (timeLeftAt c now) (Num 0).
Proof.
  cbn zeta. rewrite start_unfold. cbn zeta.
  set (s0 := assign (set_isPaused false) s).
  assert (Hp : isPaused (this s0) = false) by reflexivity.
  change (set_isPaused false (this s)) with (this s0).
  change (log (browser s)) with (log (browser s0)).
  change (nextTimer (browser s)) with (nextTimer (browser s0)).
  change (timers (browser s)) with (timers (browser s0)).
  change (intervalId (this s)) with (intervalId (this s0)).
  destruct (Js.leb (timeLeftAt (this s0) now) (Num 0)) eqn:Hl.
  - rewrite (tick_finishing host now s0 Hp Hl).
    cbn [this set_isPaused set_intervalId intervalId setInterval browser
         log timers nextTimer isPaused].
    rewrite <- !app_assoc. auto.
  - rewrite (tick_running host now s0 Hp Hl). cbn [this].
    destruct (intervalId (this s0)) as [id|] eqn:Hi;
      cbn [this set_isPaused set_intervalId intervalId setInterval clearInterval
           browser record log timers nextTimer isPaused release];
      rewrite <- ?app_assoc, ?app_nil_r; auto.
Qed.

(** ** Pause and resume *)

Lemma resume_running (host : Host) (now nowTick : Z) (s : System) :
  isPaused (this s) = false -> resume host now nowTick s = s.
Proof. intros H. unfold resume. now rewrite H. Qed.

Lemma resume_freeze (host : Host) (now nowTick : Z) (s : System) (d : Z) :
  isPaused (this s) = true ->
  relativeDuration (options (this s)) = Some d ->
  disableOnPause (timer (options (this s))) = true ->
  let P := now - pauseStart (this s) in
  resume host now nowTick s =
  start host nowTick
    (assign (fun c => set_startTimestamp (startTimestamp c + P)
                        (set_targetTimestamp (Js.add (targetTimestamp c) (Num P)) c))
            s).
Proof. intros Hp Hr Hd. unfold resume. rewrite Hp, Hr, Hd. reflexivity. Qed.

Lemma resume_plain (host : Host) (now nowTick : Z) (s : System) :
  isPaused (this s) = true ->
  relativeDuration (options (this s)) = None \/
  disableOnPause (timer (options (this s))) = false ->
  resume host now nowTick s = start host nowTick s.
Proof.
  intros Hp H. unfold resume. rewrite Hp. cbn [negb].
  destruct H as [H | H]; rewrite H; [ reflexivity | ].
  destruct (relativeDuration (options (this s))); reflexivity.
Qed.

Lemma resume_freeze_timing (host : Host) (now nowTick : Z) (s : System) (d : Z) :
  isPaused (this s) = true ->
  relativeDuration (options (this s)) = Some d ->
  disableOnPause (timer (options (this s))) = true ->
  timing (this (resume host now nowTick s)) =
  (Js.add (targetTimestamp (this s)) (Num (now - pauseStart (this s))),
   startTimestamp (this s) + (now - pauseStart (this s)),
   totalDuration (this s)).
Proof.
  intros Hp Hr Hd. rewrite (resume_freeze host now nowTick s d Hp Hr Hd).
  cbn zeta. rewrite (proj1 (start_frame _ _ _)). reflexivity.
Qed.

Lemma resume_plain_timing (host : Host) (now nowTick : Z) (s : System) :
  relativeDuration (options (this s)) = None \/
  disableOnPause (timer (options (this s))) = false ->
  timing (this (resume host now nowTick s)) = timing (this s).
Proof.
  intros H. destruct (isPaused (this s)) eqn:Hp.
  - rewrite resume_plain by assumption. apply start_frame.
  - now rewrite resume_running.
Qed.

Lemma resume_freeze_reports (host : Host) (now nowTick : Z) (s : System)
    (d : Z) (f : Callback) :
  isPaused (this s) = true ->
  relativeDuration (options (this s)) = Some d ->
  disableOnPause (timer (options (this s))) = true ->
  on_update (on (options (this s))) = Some f ->
  exists c : RobustCountdown,
    targetTimestamp c =
      Js.add (targetTimestamp (this s)) (Num (now - pauseStart (this s))) /\
    In (OnUpdate f (progressOf c nowTick (timeData (timeLeftAt c nowTick)))
          (timeLeftAt c nowTick) (timeData (timeLeftAt c nowTick)))
       (log (browser (resume host now nowTick s))).
Proof.
  intros Hp Hr Hd Hf. rewrite (resume_freeze host now nowTick s d Hp Hr Hd).
  cbn zeta.
  match goal with
  | |- context [start host nowTick ?x] =>
      destruct (start_spec host nowTick x) as [Hl _]; cbn zeta in Hl;
      exists (set_isPaused false (this x))
  end.
  split; [ reflexivity | ].
  rewrite Hl. apply in_or_app. right. apply in_or_app. left.
  unfold tickOutput. apply in_or_app. right.
  cbn [assign this set_isPaused set_startTimestamp set_targetTimestamp options].
  rewrite Hf. left. reflexivity.
Qed.

Lemma timeLeftAt_shift (c c' : RobustCountdown) (now P : Z) :
  targetTimestamp c' = Js.add (targetTimestamp c) (Num P) ->
  timeLeftAt c' (now + P) = timeLeftAt c now.
Proof.
  intros H. unfold timeLeftAt. rewrite H.
  destruct (targetTimestamp c) as [| x]; cbn; [ reflexivity | ].
  f_equal. lia.
Qed.

(** C4.  Under pause-freeze (a relative duration is configured and
    [disableOnPause] is true), pausing at [t] and resuming at [t + P] --
    whatever interval ticks fire in between -- moves both
    [targetTimestamp] and [startTimestamp] forward by [P]: the time left
    right after the resume is the time left right before the pause, the
    time elapsed in the window likewise, and so the global progress. *)
Theorem pause_resume_freeze (host : Host) (s : System)
    (t P nowTick d : Z) (ticks : list Z) :
  duration (timer (options (this s))) = Some d -> d <> 0 ->
  disableOnPause (timer (options (this s))) = true ->
  let paused := run host (map Tick ticks) (pause t s) in
  let s' := resume host (t + P) nowTick paused in
  targetTimestamp (this s') = Js.add (targetTimestamp (this s)) (Num P) /\
  startTimestamp (this s') = startTimestamp (this s) + P /\
  totalDuration (this s') = totalDuration (this s) /\
  timeLeftAt (this s') (t + P) = timeLeftAt (this s) t /\
  (t + P) - startTimestamp (this s') = t - startTimestamp (this s) /\
  globalProgress (this s') (t + P) = globalProgress (this s) t /\
  (forall f, on_update (on (options (this s))) = Some f -> nowTick = t + P ->
     exists p,
       In (OnUpdate f p (timeLeftAt (this s) t) (timeData (timeLeftAt (this s) t)))
          (log (browser s'))).
Proof.
  intros Hd Hn Hf. cbn zeta.
  rewrite ticks_while_paused by reflexivity.
  assert (Hr : relativeDuration (options (this (pause t s))) = Some d)
    by (apply relativeDuration_Some; auto).
  assert (Hrep : forall f, on_update (on (options (this s))) = Some f ->
            nowTick = t + P ->
            exists p,
              In (OnUpdate f p (timeLeftAt (this s) t)
                    (timeData (timeLeftAt (this s) t)))
                 (log (browser (resume host (t + P) nowTick (pause t s))))).
  { intros f Hu ->.
    destruct (resume_freeze_reports host (t + P) (t + P) (pause t s) d f
                eq_refl Hr Hf Hu) as [c [Hc Hin]].
    cbn [pause seq assign this set_isPaused set_pauseStart pauseStart
         targetTimestamp] in Hc.
    replace (t + P - t) with P in Hc by lia.
    rewrite (timeLeftAt_shift (this s) c t P Hc) in Hin. eauto. }
  pose proof (resume_freeze_timing host (t + P) nowTick (pause t s) d
                eq_refl Hr Hf) as Ht.
  remember (resume host (t + P) nowTick (pause t s)) as s' eqn:Es'. clear Es'.
  cbn [pause seq assign this set_isPaused set_pauseStart pauseStart
       targetTimestamp startTimestamp totalDuration] in Ht.
  unfold timing in Ht. injection Ht as Htarget Hstart Htotal.
  replace (t + P - t) with P in Htarget, Hstart by lia.
  assert (Hel : t + P - startTimestamp (this s') = t - startTimestamp (this s))
    by (rewrite Hstart; lia).
  repeat split; try assumption.
  - now apply timeLeftAt_shift.
  - unfold globalProgress. rewrite Htotal. cbn [Js.sub]. now rewrite Hel.
Qed.

(** ** Completion *)

Lemma finishes_app (l1 l2 : list Event) :
  finishes (l1 ++ l2) = finishes l1 ++ finishes l2.
Proof. apply flat_map_app. Qed.

Lemma updates_app (l1 l2 : list Event) :
  updates (l1 ++ l2) = updates l1 ++ updates l2.
Proof. apply flat_map_app. Qed.

Lemma registrations_app (l1 l2 : list Event) :
  registrations (l1 ++ l2) = registrations l1 ++ registrations l2.
Proof. apply flat_map_app. Qed.

Lemma flat_map_nil {A B : Type} (f : A -> list B) (l : list A) :
  (forall a, In a l -> f a = []) -> flat_map f l = [].
Proof.
  induction l as [| a l IH]; intros H; [ reflexivity | ].
  cbn [flat_map]. rewrite (H a) by (left; reflexivity).
  apply IH. intros b Hb. apply H. now right.
Qed.

Lemma render_silent (host : Host) (opts : Options) (data : individualTimeData)
    (els : list Element) :
  let evs := flat_map (renderElement host opts data) els in
  finishes evs = [] /\ updates evs = [] /\ registrations evs = [].
Proof.
  cbn zeta. repeat split; apply flat_map_nil; intros e He;
    apply In_render in He; destruct He as [n [text ->]]; reflexivity.
Qed.

Lemma tickOutput_finishes (host : Host) (c : RobustCountdown) (now : Z) :
  finishes (tickOutput host c now) = [] /\
  registrations (tickOutput host c now) = [].
Proof.
  unfold tickOutput.
  destruct (render_silent host (options c) (timeData (timeLeftAt c now))
              (elements c)) as [Hf [_ Hr]]. cbn zeta in Hf, Hr.
  rewrite finishes_app, registrations_app, Hf, Hr.
  destruct (on_update (on (options c))); auto.
Qed.

Lemma finishOutput_finishes (c : RobustCountdown) :
  finishes (finishOutput c) =
  match on_finish (on (options c)) with
  | Some f => [f]
  | None => []
  end.
Proof.
  unfold finishOutput.
  destruct (intervalId c), (on_finish (on (options c))); reflexivity.
Qed.

(** A stopped instance stays as it is under interval ticks, [pause()] and
    [stop()]: nothing is written, reported or registered. *)
Lemma stopped_stays_stopped (host : Host) (ops : list Op) (s : System) :
  isPaused (this s) = true ->
  intervalId (this s) = None ->
  forallb (fun op => negb (starts op)) ops = true ->
  browser (run host ops s) = browser s /\
  isPaused (this (run host ops s)) = true /\
  intervalId (this (run host ops s)) = None /\
  timing (this (run host ops s)) = timing (this s) /\
  setup (this (run host ops s)) = setup (this s).
Proof.
  revert s. induction ops as [| op ops IH]; intros s Hp Hi Hq.
  - cbn [run]. auto.
  - cbn [forallb] in Hq. apply andb_prop in Hq. destruct Hq as [Hop Hq].
    cbn [run].
    assert (Hstep : browser (step host op s) = browser s /\
                    isPaused (this (step host op s)) = true /\
                    intervalId (this (step host op s)) = None /\
                    timing (this (step host op s)) = timing (this s) /\
                    setup (this (step host op s)) = setup (this s)).
    { destruct op; cbn [starts negb] in Hop; try discriminate; cbn [step].
      - rewrite tick_paused by assumption. auto.
      - cbn. auto.
      - unfold stop. rewrite Hi. cbn. auto. }
    destruct Hstep as [Hb [Hp' [Hi' [Ht Hs]]]].
    destruct (IH (step host op s) Hp' Hi' Hq) as [Hb2 [Hp2 [Hi2 [Ht2 Hs2]]]].
    rewrite Hb2, Ht2, Hs2. auto.
Qed.

(** When the finishing tick is the synchronous one of [start()], the
    interval is registered after it: the instance is left paused with a
    live registration, whose ticks do nothing. *)
Lemma start_on_elapsed_target (host : Host) (now : Z) (s : System) :
  Js.leb (timeLeftAt (this s) now) (Num 0) = true ->
  isPaused (this (start host now s)) = true /\
  intervalId (this (start host now s)) = Some (nextTimer (browser s)) /\
  In (nextTimer (browser s)) (timers (browser (start host now s))).
Proof.
  intros Hl. destruct (start_spec host now s) as [_ [Hi [Ht [_ Hp]]]].
  cbn zeta in Hp. rewrite Hi, Ht, Hp. split; [ exact Hl | ].
  split; [ reflexivity | now left ].
Qed.

(** C5, as the code has it.  A processed tick that observes
    [timeLeft <= 0] releases the registration held in [intervalId], marks
    the instance paused and invokes [on.finish] once if it is configured.
    From then on interval ticks, [pause()] and [stop()] process nothing:
    nothing is rendered, no callback fires, no timer is registered, and
    the timing window stays put.  (Every call that goes through
    [start()], [resume()] included, re-arms the instance.) *)
Theorem completion_is_terminal (host : Host) (s : System) (now : Z)
    (ops : list Op) :
  isPaused (this s) = false ->
  Js.leb (timeLeftAt (this s) now) (Num 0) = true ->
  forallb (fun op => negb (starts op)) ops = true ->
  let s1 := tick host now s in
  let s2 := run host ops s1 in
  intervalId (this s1) = None /\
  isPaused (this s1) = true /\
  timers (browser s1) = release (intervalId (this s)) (timers (browser s)) /\
  finishes (log (browser s1)) =
    finishes (log (browser s)) ++
    match on_finish (on (options (this s))) with
    | Some f => [f]
    | None => []
    end /\
  browser s2 = browser s1 /\
  isPaused (this s2) = true /\
  intervalId (this s2) = None /\
  timing (this s2) = timing (this s1).
Proof.
  intros Hp Hl Hq. cbn zeta.
  assert (H1 : intervalId (this (tick host now s)) = None /\
               isPaused (this (tick host now s)) = true)
    by (rewrite tick_finishing by assumption; auto).
  destruct H1 as [Hi1 Hp1].
  destruct (stopped_stays_stopped host ops (tick host now s) Hp1 Hi1 Hq)
    as [Hb [Hp2 [Hi2 [Ht2 _]]]].
  repeat split; try assumption.
  - rewrite tick_finishing by assumption. reflexivity.
  - rewrite tick_finishing by assumption. cbn [log browser].
    rewrite !finishes_app, finishOutput_finishes.
    rewrite (proj1 (tickOutput_finishes host (this s) now)). reflexivity.
Qed.

(** ** Who writes the timing window *)

Lemma restart_timing (host : Host) (t nowTick : Z) (s : System) :
  timing (this (restart host t nowTick s)) =
  timing (this (calculateTarget host t (stop s))) /\
  options (this (stop s)) = options (this s).
Proof.
  split.
  - unfold restart, seq. apply start_frame.
  - rewrite stop_spec. reflexivity.
Qed.

Lemma restart_meets_rule (host : Host) (t nowTick : Z) (s : System) :
  let s' := restart host t nowTick s in
  TargetRule host (options (this s)) t
    (targetTimestamp (this s')) (totalDuration (this s')) /\
  startTimestamp (this s') = t.
Proof.
  cbn zeta. destruct (restart_timing host t nowTick s) as [Ht Ho].
  remember (restart host t nowTick s) as s' eqn:Es'. clear Es'.
  remember (calculateTarget host t (stop s)) as s1 eqn:Es1.
  unfold timing in Ht. injection Ht as -> -> ->.
  subst s1. rewrite <- Ho. split.
  - now apply calculateTarget_meets_rule.
  - apply calculateTarget_fields.
Qed.

Lemma update_unfold (host : Host) (o : PartialOptions) (t nowTick : Z) (s : System) :
  update host o t nowTick s =
  restart host t nowTick
    (assign (fun c => set_options (mergeOptions (options c) o) c) s).
Proof. reflexivity. Qed.

(** C9, as the code has it.  [totalDuration] is written by target
    computation only, that is by [restart()] and [update()] (and the
    constructor), which write [targetTimestamp] and [startTimestamp] in
    the same computation, by the rule of the configuration in force.  The
    one other write to [targetTimestamp] is that of [resume()] under
    pause-freeze, which moves [targetTimestamp] and [startTimestamp] by
    the pause duration and leaves [totalDuration] alone; interval ticks,
    [start()], [pause()] and [stop()] write none of the three. *)
Theorem timing_written_by_recomputation_or_freeze (host : Host) (op : Op)
    (s : System) :
  let s' := step host op s in
  match op with
  | Restart t _ =>
      TargetRule host (options (this s)) t
        (targetTimestamp (this s')) (totalDuration (this s')) /\
      startTimestamp (this s') = t
  | Update o t _ =>
      TargetRule host (mergeOptions (options (this s)) o) t
        (targetTimestamp (this s')) (totalDuration (this s')) /\
      startTimestamp (this s') = t
  | Resume now _ =>
      let P := now - pauseStart (this s) in
      if isPaused (this s) &&
         match relativeDuration (options (this s)) with
         | Some _ => disableOnPause (timer (options (this s)))
         | None => false
         end
      then timing (this s') =
           (Js.add (targetTimestamp (this s)) (Num P),
            startTimestamp (this s) + P,
            totalDuration (this s))
      else timing (this s') = timing (this s)
  | Tick _ | Start _ | Pause _ | Stop => timing (this s') = timing (this s)
  end.
Proof.
  cbn zeta. op_cases op.
  - apply tick_frame.
  - apply start_frame.
  - apply pause_frame.
  - destruct (isPaused (this s)) eqn:Hp; cbn [andb].
    + destruct (relativeDuration (options (this s))) as [d|] eqn:Hr.
      * destruct (disableOnPause (timer (options (this s)))) eqn:Hd.
        -- now apply (resume_freeze_timing host now nowTick s d).
        -- apply resume_plain_timing. now right.
      * apply resume_plain_timing. now left.
    + now rewrite resume_running.
  - apply stop_frame.
  - apply restart_meets_rule.
  - rewrite update_unfold.
    exact (restart_meets_rule host t nowTick
             (assign (fun c => set_options (mergeOptions (options c) o) c) s)).
Qed.

(** C9 as stated fails: [resume()] is not a target computation, and under
    pause-freeze it writes [targetTimestamp] -- here from 60000 to 62000 --
    without writing [totalDuration]. *)
Lemma resume_writes_targetTimestamp :
  ~ (forall (s : System) (op : Op),
       recomputes op = false ->
       targetTimestamp (this (step Sample.host op s)) = targetTimestamp (this s)).
Proof.
  intros H.
  specialize (H (pause 1000 (Sample.fresh (Sample.relativeOptions 60000 true) 0))
                (Resume 3000 3000) eq_refl).
  vm_compute in H. discriminate H.
Qed.

(** ** One tick, then the registration: the calls through [start()] *)

Lemma tickOutput_immediate (host : Host) (c : RobustCountdown) (now : Z) :
  tickOutput host c now = immediateOutput host c now.
Proof. reflexivity. Qed.

Lemma immediateOutput_same (host : Host) (c c' : RobustCountdown) (now : Z) :
  setup c = setup c' -> timing c = timing c' ->
  immediateOutput host c now = immediateOutput host c' now /\
  finishCall c now = finishCall c' now.
Proof.
  unfold setup, timing. intros Hs Ht.
  destruct c, c'. cbn in Hs, Ht. injection Hs as -> ->. injection Ht as -> -> ->.
  split; reflexivity.
Qed.

(** The trace of [start()], told by the state it leaves. *)
Lemma start_started (host : Host) (now : Z) (x : System) (before : Browser)
    (pre post : list Event) :
  log (browser x) = log before ++ pre ->
  nextTimer (browser x) = nextTimer before ->
  clears (intervalId (this x)) = post ->
  StartedAt host before pre post now (start host now x).
Proof.
  intros Hlog Hnext <-.
  destruct (start_spec host now x) as [Hl [Hi [Ht _]]]. cbn zeta in Hl.
  destruct (start_frame host now x) as [Htm [Hs _]].
  destruct (immediateOutput_same host (set_isPaused false (this x))
              (this (start host now x)) now) as [Hout Hfin].
  { rewrite Hs. reflexivity. }
  { rewrite Htm. reflexivity. }
  unfold StartedAt.
  remember (start host now x) as s' eqn:Es'. clear Es'.
  split; [ | split ].
  - rewrite Hl, Hlog, Hnext, tickOutput_immediate, <- Hout, <- Hfin.
    rewrite <- !app_assoc. do 3 f_equal.
    unfold finishCall, finishOutput, timeLeftAt, clears.
    cbn [set_isPaused targetTimestamp options intervalId].
    destruct (Js.leb (Js.max (Num 0) (Js.sub (targetTimestamp (this x)) (Num now)))
                (Num 0)).
    + now rewrite <- app_assoc.
    + reflexivity.
  - rewrite Hi, Hnext. reflexivity.
  - rewrite Ht, Hnext. now left.
Qed.

(** C10.  Every call that goes through [start()] -- [start()] itself,
    [resume()] on a paused instance, [restart()], [update()], and the
    constructor when the selector matches an element -- runs one tick
    synchronously, at the clock reading of that call, and only then
    registers the 1000 ms interval.  The trace grows by exactly: the
    release of the held interval (first for [restart()] and [update()],
    after the tick for [start()] and [resume()]), the rendering of every
    resolved slot and the [on.update] call of that one tick, the
    [on.finish] call if no time is left, and last the [setInterval]. *)
Theorem start_runs_a_tick_before_registering (host : Host) :
  (forall (op : Op) (s : System),
     starts op = true ->
     (forall now nowTick, op = Resume now nowTick -> isPaused (this s) = true) ->
     StartedAt host (browser s)
       (if recomputes op then clears (intervalId (this s)) else [])
       (if recomputes op then [] else clears (intervalId (this s)))
       (tickReading op) (step host op s)) /\
  (forall (selector : string) (opts : PartialOptions) (tYear t nowTick : Z)
          (b : Browser),
     querySelectorAll host selector <> [] ->
     exists s', construct host selector opts tYear t nowTick b = Live s' /\
                StartedAt host b [] [] nowTick s') /\
  (forall (c : RobustCountdown) (now : Z) (f : Callback),
     on_update (on (options c)) = Some f ->
     In (OnUpdate f (progressOf c now (timeData (timeLeftAt c now)))
           (timeLeftAt c now) (timeData (timeLeftAt c now)))
        (immediateOutput host c now)) /\
  (forall (c : RobustCountdown) (now : Z) (el : Element) (n : Node),
     In el (elements c) ->
     let data := timeData (timeLeftAt c now) in
     (querySelector host el (daysSelector (options c)) = Some n ->
      In (SetInnerText n (format (options c) (d_days data)))
         (immediateOutput host c now)) /\
     (querySelector host el (hoursSelector (options c)) = Some n ->
      In (SetInnerText n (format (options c) (d_hours data)))
         (immediateOutput host c now)) /\
     (querySelector host el (minutesSelector (options c)) = Some n ->
      In (SetInnerText n (format (options c) (d_minutes data)))
         (immediateOutput host c now)) /\
     (querySelector host el (secondsSelector (options c)) = Some n ->
      In (SetInnerText n (format (options c) (d_seconds data)))
         (immediateOutput host c now))).
Proof.
  split; [ | split; [ | split ] ].
  - intros op s Hs Hres.
    destruct op as [now | now | now | now nowTick | | t nowTick | o t nowTick];
      cbn [starts] in Hs; try discriminate; cbn [step recomputes tickReading].
    + apply (start_started host now s (browser s) []);
        [ now rewrite app_nil_r | reflexivity | reflexivity ].
    + specialize (Hres now nowTick eq_refl).
      destruct (relativeDuration (options (this s))) as [d|] eqn:Hr.
      * destruct (disableOnPause (timer (options (this s)))) eqn:Hd.
        -- rewrite (resume_freeze host now nowTick s d Hres Hr Hd). cbn zeta.
           match goal with
           | |- StartedAt _ _ _ _ _ (start host nowTick ?x) =>
               apply (start_started host nowTick x (browser s) [])
           end;
             [ cbn [assign browser]; now rewrite app_nil_r
             | reflexivity | reflexivity ].
        -- rewrite resume_plain by auto.
           apply (start_started host nowTick s (browser s) []);
             [ now rewrite app_nil_r | reflexivity | reflexivity ].
      * rewrite resume_plain by auto.
        apply (start_started host nowTick s (browser s) []);
          [ now rewrite app_nil_r | reflexivity | reflexivity ].
    + unfold restart, seq.
      destruct (calculateTarget_fields host t (stop s))
        as [_ [_ [_ [Hid [_ [_ Hb]]]]]].
      apply start_started;
        [ rewrite Hb, stop_spec; reflexivity
        | rewrite Hb, stop_spec; reflexivity
        | rewrite Hid, stop_spec; reflexivity ].
    + rewrite update_unfold. unfold restart, seq.
      set (s0 := assign (fun c => set_options (mergeOptions (options c) o) c) s).
      change (browser s) with (browser s0).
      change (intervalId (this s)) with (intervalId (this s0)).
      destruct (calculateTarget_fields host t (stop s0))
        as [_ [_ [_ [Hid [_ [_ Hb]]]]]].
      apply start_started;
        [ rewrite Hb, stop_spec; reflexivity
        | rewrite Hb, stop_spec; reflexivity
        | rewrite Hid, stop_spec; reflexivity ].
  - intros selector opts tYear t nowTick b Hne. unfold construct.
    destruct (querySelectorAll host selector) as [| el els]; [ contradiction | ].
    eexists. split; [ reflexivity | ].
    unfold init, seq.
    match goal with
    | |- StartedAt _ _ _ _ _ (start host nowTick (calculateTarget host t ?x0)) =>
        destruct (calculateTarget_fields host t x0) as [_ [_ [_ [Hid [_ [_ Hb]]]]]]
    end.
    apply start_started;
      [ rewrite Hb; cbn [browser]; now rewrite app_nil_r
      | rewrite Hb; reflexivity
      | rewrite Hid; reflexivity ].
  - intros c now f Hf. unfold immediateOutput. cbn zeta. rewrite Hf.
    apply in_or_app. right. left. reflexivity.
  - intros c now el n Hel. cbn zeta. unfold immediateOutput. cbn zeta.
    repeat split; intros Hq; apply in_or_app; left; apply in_flat_map;
      exists el; (split; [ exact Hel | ]); rewrite Hq;
      unfold timeLeftAt; rewrite !in_app_iff; cbn [In]; tauto.
Qed.

(** ** Construction without elements *)

(** C7, as the code has it.  When the selector matches no element the
    constructor reports the error on the console and returns at once:
    construction completes, but the instance is never initialised -- no
    options are merged, no target is computed, no tick runs, no callback
    fires and no interval is registered. *)
Theorem construct_without_elements (host : Host) (selector : string)
    (opts : PartialOptions) (tYear t nowTick : Z) (b : Browser) :
  querySelectorAll host selector = [] ->
  exists b' : Browser,
    construct host selector opts tYear t nowTick b = Inert b' /\
    log b' = log b ++ [ConsoleError (noElementsMessage selector)] /\
    timers b' = timers b /\
    nextTimer b' = nextTimer b /\
    updates (log b') = updates (log b) /\
    finishes (log b') = finishes (log b).
Proof.
  intros Hnone. unfold construct. rewrite Hnone.
  eexists. split; [ reflexivity | ].
  cbn [record log timers nextTimer].
  rewrite updates_app, finishes_app. cbn [updates finishes flat_map app].
  rewrite !app_nil_r. auto.
Qed.

(** C7 as stated fails: with no element matched, and both callbacks
    configured, the constructor leaves no initialised instance: no target
    is computed and [on.update] is not invoked. *)
Lemma inert_when_no_element_matches :
  ~ (forall (selector : string) (opts : PartialOptions) (tYear t nowTick : Z)
            (b : Browser),
       querySelectorAll Sample.host selector = [] ->
       exists s' : System,
         construct Sample.host selector opts tYear t nowTick b = Live s' /\
         TargetRule Sample.host (options (this s')) t
           (targetTimestamp (this s')) (totalDuration (this s')) /\
         (on_update (on (options (this s'))) <> None ->
          updates (log (browser s')) <> [])).
Proof.
  intros H.
  destruct (H "#missing"%string (Sample.relativeOptions 60000 true) 0 0 0
              Sample.blank eq_refl) as [s' [E _]].
  vm_compute in E. discriminate E.
Qed.

(** ** The sign of [totalDuration] *)

Lemma totalDuration_absolute (host : Host) (t : Z) (s : System) :
  relativeDuration (options (this s)) = None ->
  totalDuration (this (calculateTarget host t s)) = NaN \/
  exists T, totalDuration (this (calculateTarget host t s)) = Num T /\ 0 <= T.
Proof.
  intros Hr. destruct (calculateTarget_absolute host t s Hr) as [_ E].
  cbn zeta in E. rewrite E.
  match goal with
  | |- context [Js.sub ?x _] => destruct x as [| z]
  end.
  - now left.
  - right. cbn. eexists. split; [ reflexivity | lia ].
Qed.

Lemma calculateTarget_notNegative (host : Host) (t : Z) (s : System) :
  durationNotNegative (timer (options (this s))) ->
  notNegative (totalDuration (this (calculateTarget host t s))).
Proof.
  intros Hd. destruct (relativeDuration (options (this s))) as [d|] eqn:Hr.
  - destruct (calculateTarget_relative host t s d Hr) as [_ ->].
    apply relativeDuration_Some in Hr. destruct Hr as [Hr _].
    unfold durationNotNegative in Hd. rewrite Hr in Hd. exact Hd.
  - destruct (totalDuration_absolute host t s Hr) as [-> | [T [-> HT]]].
    + exact I.
    + exact HT.
Qed.

Lemma mergeTimer_notNegative (base : TimerOptions) (o : PartialOptions) :
  durationNotNegative base ->
  passesNoNegativeDuration o ->
  durationNotNegative (mergeTimer base (p_timer o)).
Proof.
  unfold durationNotNegative, passesNoNegativeDuration, mergeTimer.
  intros Hb Ho. destruct (p_timer o) as [pt|]; [ | exact Hb ].
  cbn [duration]. destruct (p_duration pt) as [[d|]|]; cbn [spread]; auto.
Qed.

Lemma setup_options (c c' : RobustCountdown) :
  setup c = setup c' -> options c = options c'.
Proof. intros H. now injection H. Qed.

Lemma timing_totalDuration (c c' : RobustCountdown) :
  timing c = timing c' -> totalDuration c = totalDuration c'.
Proof. intros H. now injection H. Qed.

(** The configuration after one call: only [update()] changes it. *)
Lemma step_options (host : Host) (op : Op) (s : System) :
  options (this (step host op s)) =
  match op with
  | Update o _ _ => mergeOptions (options (this s)) o
  | _ => options (this s)
  end.
Proof.
  op_cases op.
  - apply setup_options, tick_frame.
  - apply setup_options, start_frame.
  - reflexivity.
  - destruct (isPaused (this s)) eqn:Hp; [ | now rewrite resume_running ].
    destruct (relativeDuration (options (this s))) as [d|] eqn:Hr;
      [ destruct (disableOnPause (timer (options (this s)))) eqn:Hf | ].
    + rewrite (resume_freeze host now nowTick s d Hp Hr Hf). cbn zeta.
      etransitivity; [ apply setup_options, start_frame | reflexivity ].
    + rewrite resume_plain by auto. apply setup_options, start_frame.
    + rewrite resume_plain by auto. apply setup_options, start_frame.
  - apply setup_options, stop_frame.
  - unfold restart, seq.
    etransitivity; [ apply setup_options, start_frame | ].
    etransitivity; [ apply calculateTarget_fields | ].
    apply setup_options, stop_frame.
  - rewrite update_unfold. unfold restart, seq.
    etransitivity; [ apply setup_options, start_frame | ].
    etransitivity; [ apply calculateTarget_fields | ].
    etransitivity; [ apply setup_options, stop_frame | reflexivity ].
Qed.

(** The total duration after one call: only a recomputation changes it. *)
Lemma step_totalDuration (host : Host) (op : Op) (s : System) :
  totalDuration (this (step host op s)) =
  match op with
  | Restart t _ => totalDuration (this (calculateTarget host t (stop s)))
  | Update o t _ =>
      totalDuration
        (this (calculateTarget host t
                 (stop (assign (fun c => set_options (mergeOptions (options c) o) c) s))))
  | _ => totalDuration (this s)
  end.
Proof.
  op_cases op.
  - apply timing_totalDuration, tick_frame.
  - apply timing_totalDuration, start_frame.
  - reflexivity.
  - destruct (isPaused (this s)) eqn:Hp; [ | now rewrite resume_running ].
    destruct (relativeDuration (options (this s))) as [d|] eqn:Hr;
      [ destruct (disableOnPause (timer (options (this s)))) eqn:Hf | ].
    + pose proof (resume_freeze_timing host now nowTick s d Hp Hr Hf) as H.
      unfold timing in H. now injection H.
    + apply timing_totalDuration, resume_plain_timing. now right.
    + apply timing_totalDuration, resume_plain_timing. now left.
  - apply timing_totalDuration, stop_frame.
  - apply timing_totalDuration, restart_timing.
  - rewrite update_unfold. apply timing_totalDuration, restart_timing.
Qed.

(** Away from negative durations the invariant of C6 holds: if neither
    the configuration nor any later [update()] carries a negative
    duration, [totalDuration] never becomes negative, whatever calls are
    made. *)
Lemma totalDuration_notNegative (host : Host) (ops : list Op) (s : System) :
  durationNotNegative (timer (options (this s))) ->
  notNegative (totalDuration (this s)) ->
  Forall opPassesNoNegativeDuration ops ->
  durationNotNegative (timer (options (this (run host ops s)))) /\
  notNegative (totalDuration (this (run host ops s))).
Proof.
  intros Hd Ht Hops. revert s Hd Ht.
  induction Hops as [| op ops Hop _ IH]; intros s Hd Ht; [ now split | ].
  cbn [run].
  assert (Hd' : durationNotNegative (timer (options (this (step host op s))))).
  { rewrite step_options. destruct op; try exact Hd.
    cbn [mergeOptions timer]. now apply mergeTimer_notNegative. }
  apply IH; [ exact Hd' | ].
  rewrite step_totalDuration. destruct op; try exact Ht.
  - apply calculateTarget_notNegative.
    now rewrite (setup_options _ _ (proj1 (proj2 (stop_frame s)))).
  - apply calculateTarget_notNegative.
    rewrite (setup_options _ _ (proj1 (proj2 (stop_frame _)))).
    cbn [assign this set_options options mergeOptions timer].
    now apply mergeTimer_notNegative.
Qed.

Lemma construct_notNegative (host : Host) (selector : string)
    (opts : PartialOptions) (tYear t nowTick : Z) (b : Browser) (s : System) :
  passesNoNegativeDuration opts ->
  construct host selector opts tYear t nowTick b = Live s ->
  durationNotNegative (timer (options (this s))) /\
  notNegative (totalDuration (this s)).
Proof.
  intros Ho Hc. unfold construct in Hc.
  destruct (querySelectorAll host selector) as [| el els]; [ discriminate | ].
  injection Hc as <-. unfold init, seq.
  match goal with
  | |- context [start host nowTick (calculateTarget host t ?x)] => set (s0 := x)
  end.
  assert (Hd : durationNotNegative (timer (options (this s0)))).
  { cbn [s0 this options mergeOptions timer].
    apply mergeTimer_notNegative; [ exact I | exact Ho ]. }
  rewrite (setup_options _ _ (proj1 (proj2 (start_frame host nowTick _)))).
  rewrite (timing_totalDuration _ _ (proj1 (start_frame host nowTick _))).
  rewrite (proj1 (proj2 (calculateTarget_fields host t s0))).
  split; [ exact Hd | now apply calculateTarget_notNegative ].
Qed.

(** C6 fails on the relative path.  [new RobustCountdown("#timer",
    { timer: { duration: -5000 } })] leaves [totalDuration = -5000]: the
    relative branch of [calculateTarget] stores the duration as it is,
    where the absolute branch clamps with [Math.max(0, ...)] -- a target
    5000 ms in the past given as a date leaves [totalDuration = 0]. *)
Theorem negative_duration_negative_totalDuration :
  let relative := Sample.fresh (Sample.relativeOptions (-5000) true) 10000 in
  let absolute := Sample.fresh (Sample.dateOptions 1970 1) 5000 in
  totalDuration (this relative) = Num (-5000) /\
  Js.leb (Num 0) (totalDuration (this relative)) = false /\
  targetTimestamp (this relative) = Num 5000 /\
  targetTimestamp (this absolute) = Num 0 /\
  totalDuration (this absolute) = Num 0.
Proof. vm_compute. repeat split. Qed.

(** ** Pausing twice *)

Lemma pause_same_instant (t : Z) (s : System) :
  pause t (pause t s) = pause t s.
Proof. reflexivity. Qed.

Lemma pause_overwrites_pauseStart (t1 t2 : Z) (s : System) :
  pauseStart (this (pause t2 (pause t1 s))) = t2.
Proof. reflexivity. Qed.

(** C8 fails for [pause()].  A 60 s timer under pause-freeze, created at
    0: paused at 1000 and resumed at 10000 it has 59000 ms left, the time
    left at the pause; paused at 1000, paused again at 5000 and resumed at
    10000 it has 55000 ms left.  The second [pause()] overwrites
    [pauseStart], so the 4000 ms between the two calls are not frozen.
    ([resume()] on a running instance does nothing.) *)
Theorem second_pause_moves_pauseStart :
  let s := Sample.fresh (Sample.relativeOptions 60000 true) 0 in
  let once := resume Sample.host 10000 10000 (pause 1000 s) in
  let twice := resume Sample.host 10000 10000 (pause 5000 (pause 1000 s)) in
  timeLeftAt (this s) 1000 = Num 59000 /\
  timeLeftAt (this once) 10000 = Num 59000 /\
  timeLeftAt (this twice) 10000 = Num 55000 /\
  pauseStart (this (pause 1000 s)) = 1000 /\
  pauseStart (this (pause 5000 (pause 1000 s))) = 5000 /\
  resume Sample.host 10000 10000 s = s.
Proof. vm_compute. repeat split. Qed.

(** ** Completion and [resume()] *)

(** C5 as stated fails: after the finishing tick of a 1 s timer (created
    at 0, finished by the tick at 1000), [resume()] at 2000 -- neither a
    restart nor an update -- runs a tick again, which invokes [on.finish] a
    second time. *)
Lemma resume_after_completion_finishes_again :
  ~ (forall (s : System) (now : Z) (ops : list Op),
       isPaused (this s) = false ->
       Js.leb (timeLeftAt (this s) now) (Num 0) = true ->
       forallb (fun op => negb (recomputes op)) ops = true ->
       finishes (log (browser (run Sample.host ops (tick Sample.host now s)))) =
       finishes (log (browser (tick Sample.host now s)))).
Proof.
  intros H.
  specialize (H (Sample.fresh (Sample.relativeOptions 1000 false) 0) 1000
                [Resume 2000 2000] eq_refl eq_refl eq_refl).
  vm_compute in H. discriminate H.
Qed.

(** * The properties at work on the sample browser *)

(** A 60 s timer recomputed at 500: target 60500, total duration 60000. *)
Lemma calculateTarget_applies_one_rule_witness :
  Num 60500 =
    targetTimestamp
      (this (calculateTarget Sample.host 500
               (Sample.fresh (Sample.relativeOptions 60000 true) 0))) /\
  Num 60000 =
    totalDuration
      (this (calculateTarget Sample.host 500
               (Sample.fresh (Sample.relativeOptions 60000 true) 0))).
Proof.
  apply (proj1 (proj1 (calculateTarget_applies_one_rule Sample.host 500
                         (Sample.fresh (Sample.relativeOptions 60000 true) 0)
                         (Num 60500) (Num 60000)))).
  apply (Rule_relative Sample.host _ 500 60000).
  - reflexivity.
  - discriminate.
Defined.

(** A 5 s timer created at 0, ticking at 2500. *)
Lemma tick_progress_total_witness :
  isPaused (this (Sample.fresh (Sample.relativeOptions 5000 true) 0)) = false /\
  exists added : list Event,
    log (browser (tick Sample.host 2500
                    (Sample.fresh (Sample.relativeOptions 5000 true) 0))) =
      log (browser (Sample.fresh (Sample.relativeOptions 5000 true) 0)) ++ added /\
    (forall f,
       on_update (on (options (this (Sample.fresh (Sample.relativeOptions 5000 true) 0))))
         = Some f ->
       exists p tl d, In (OnUpdate f p tl d) added) /\
    (forall f p tl d, In (OnUpdate f p tl d) added ->
       (forall T,
          totalDuration (this (Sample.fresh (Sample.relativeOptions 5000 true) 0))
            = Num T -> 0 < T ->
          exists q, total p = Num q /\
            (q == clamp01
                    (inject_Z
                       (2500 - startTimestamp
                                 (this (Sample.fresh (Sample.relativeOptions 5000 true) 0)))
                     / inject_Z T))%Q /\
            (0 <= q <= 1)%Q) /\
       (forall T,
          totalDuration (this (Sample.fresh (Sample.relativeOptions 5000 true) 0))
            = Num T -> T <= 0 ->
          total p = Num 1%Q)).
Proof.
  split.
  - reflexivity.
  - apply (tick_progress_total Sample.host 2500
             (Sample.fresh (Sample.relativeOptions 5000 true) 0)).
    reflexivity.
Defined.

(** A 60 s timer created at 0, paused at 1000 for 9000 ms, two interval
    ticks firing during the pause. *)
Lemma pause_resume_freeze_witness :
  duration (timer (options (this (Sample.fresh (Sample.relativeOptions 60000 true) 0))))
    = Some 60000 /\
  60000 <> 0 /\
  disableOnPause (timer (options (this (Sample.fresh (Sample.relativeOptions 60000 true) 0))))
    = true /\
  let s := Sample.fresh (Sample.relativeOptions 60000 true) 0 in
  let paused := run Sample.host (map Tick [2000; 3000]) (pause 1000 s) in
  let s' := resume Sample.host (1000 + 9000) 10000 paused in
  targetTimestamp (this s') = Js.add (targetTimestamp (this s)) (Num 9000) /\
  startTimestamp (this s') = startTimestamp (this s) + 9000 /\
  totalDuration (this s') = totalDuration (this s) /\
  timeLeftAt (this s') (1000 + 9000) = timeLeftAt (this s) 1000 /\
  (1000 + 9000) - startTimestamp (this s') = 1000 - startTimestamp (this s) /\
  globalProgress (this s') (1000 + 9000) = globalProgress (this s) 1000 /\
  (forall f, on_update (on (options (this s))) = Some f -> 10000 = 1000 + 9000 ->
     exists p,
       In (OnUpdate f p (timeLeftAt (this s) 1000)
             (timeData (timeLeftAt (this s) 1000)))
          (log (browser s'))).
Proof.
  split; [ reflexivity | ]. split; [ discriminate | ]. split; [ reflexivity | ].
  apply (pause_resume_freeze Sample.host
           (Sample.fresh (Sample.relativeOptions 60000 true) 0)
           1000 9000 10000 60000 [2000; 3000]).
  - reflexivity.
  - discriminate.
  - reflexivity.
Defined.

(** A 1 s timer created at 0 and finished by the tick at 1000, then two
    interval ticks, a [pause()] and a [stop()]. *)
Lemma completion_is_terminal_witness :
  isPaused (this (Sample.fresh (Sample.relativeOptions 1000 false) 0)) = false /\
  Js.leb (timeLeftAt (this (Sample.fresh (Sample.relativeOptions 1000 false) 0)) 1000)
         (Num 0) = true /\
  forallb (fun op => negb (starts op)) [Tick 2000; Pause 2500; Tick 3000; Stop] = true /\
  let s := Sample.fresh (Sample.relativeOptions 1000 false) 0 in
  let s1 := tick Sample.host 1000 s in
  let s2 := run Sample.host [Tick 2000; Pause 2500; Tick 3000; Stop] s1 in
  intervalId (this s1) = None /\
  isPaused (this s1) = true /\
  timers (browser s1) = release (intervalId (this s)) (timers (browser s)) /\
  finishes (log (browser s1)) =
    finishes (log (browser s)) ++
    match on_finish (on (options (this s))) with
    | Some f => [f]
    | None => []
    end /\
  browser s2 = browser s1 /\
  isPaused (this s2) = true /\
  intervalId (this s2) = None /\
  timing (this s2) = timing (this s1).
Proof.
  split; [ reflexivity | ]. split; [ reflexivity | ]. split; [ reflexivity | ].
  apply (completion_is_terminal Sample.host
           (Sample.fresh (Sample.relativeOptions 1000 false) 0) 1000
           [Tick 2000; Pause 2500; Tick 3000; Stop]); reflexivity.
Defined.

(** [new RobustCountdown("#missing", ...)] in the sample document. *)
Lemma construct_without_elements_witness :
  querySelectorAll Sample.host "#missing" = [] /\
  exists b' : Browser,
    construct Sample.host "#missing" (Sample.relativeOptions 60000 true) 0 0 0
      Sample.blank = Inert b' /\
    log b' = log Sample.blank ++ [ConsoleError (noElementsMessage "#missing")] /\
    timers b' = timers Sample.blank /\
    nextTimer b' = nextTimer Sample.blank /\
    updates (log b') = updates (log Sample.blank) /\
    finishes (log b') = finishes (log Sample.blank).
Proof.
  split.
  - reflexivity.
  - apply (construct_without_elements Sample.host "#missing"
             (Sample.relativeOptions 60000 true) 0 0 0 Sample.blank).
    reflexivity.
Defined.

(** [resume()] at 3000 of a 60 s timer paused at 1000. *)
Lemma start_runs_a_tick_before_registering_witness :
  starts (Resume 3000 3000) = true /\
  isPaused (this (pause 1000 (Sample.fresh (Sample.relativeOptions 60000 true) 0)))
    = true /\
  StartedAt Sample.host
    (browser (pause 1000 (Sample.fresh (Sample.relativeOptions 60000 true) 0)))
    []
    (clears (intervalId
               (this (pause 1000 (Sample.fresh (Sample.relativeOptions 60000 true) 0)))))
    3000
    (step Sample.host (Resume 3000 3000)
       (pause 1000 (Sample.fresh (Sample.relativeOptions 60000 true) 0))).
Proof.
  split; [ reflexivity | ]. split; [ reflexivity | ].
  apply (proj1 (start_runs_a_tick_before_registering Sample.host)
           (Resume 3000 3000)
           (pause 1000 (Sample.fresh (Sample.relativeOptions 60000 true) 0))).
  - reflexivity.
  - intros now nowTick _. reflexivity.
Defined.

(** * Further properties of the engine *)

(** ** The timing window of a constructed instance *)

Lemma WindowKept_same (c c' : RobustCountdown) :
  options c' = options c -> timing c' = timing c ->
  WindowKept c -> WindowKept c'.
Proof.
  unfold WindowKept, timing. intros Ho Ht. injection Ht as Ha Hb Hc.
  now rewrite Ho, Ha, Hb, Hc.
Qed.

Lemma calculateTarget_window (host : Host) (t : Z) (s : System) :
  WindowKept (this (calculateTarget host t s)).
Proof.
  unfold WindowKept.
  destruct (calculateTarget_fields host t s) as [Hs [Ho _]]. cbn zeta in Hs, Ho.
  rewrite Ho, Hs.
  destruct (relativeDuration (options (this s))) as [d|] eqn:Hr.
  - apply (calculateTarget_relative host t s d Hr).
  - destruct (calculateTarget_absolute host t s Hr) as [E1 E2].
    cbn zeta in E1, E2. now rewrite E2, E1.
Qed.

Lemma restart_window (host : Host) (t nowTick : Z) (s : System) :
  WindowKept (this (restart host t nowTick s)).
Proof.
  unfold restart, seq.
  apply (WindowKept_same (this (calculateTarget host t (stop s)))).
  - apply setup_options, start_frame.
  - apply start_frame.
  - apply calculateTarget_window.
Qed.

Lemma step_keeps_window (host : Host) (op : Op) (s : System) :
  WindowKept (this s) -> WindowKept (this (step host op s)).
Proof.
  intros Hw. op_cases op.
  - apply (WindowKept_same (this s));
      [ apply setup_options, tick_frame | apply tick_frame | exact Hw ].
  - apply (WindowKept_same (this s));
      [ apply setup_options, start_frame | apply start_frame | exact Hw ].
  - exact Hw.
  - destruct (isPaused (this s)) eqn:Hp; [ | now rewrite resume_running ].
    pose proof (step_options host (Resume now nowTick) s) as Ho. cbn [step] in Ho.
    destruct (relativeDuration (options (this s))) as [d|] eqn:Hr;
      [ destruct (disableOnPause (timer (options (this s)))) eqn:Hf | ].
    + pose proof (resume_freeze_timing host now nowTick s d Hp Hr Hf) as Ht.
      unfold timing in Ht. injection Ht as Ha Hb Hc.
      unfold WindowKept in *. rewrite Ho, Hr in *. rewrite Ha, Hb, Hc.
      destruct Hw as [-> ->]. cbn [Js.add]. split; [ f_equal; lia | reflexivity ].
    + apply (WindowKept_same (this s)); [ exact Ho | | exact Hw ].
      apply resume_plain_timing. now right.
    + apply (WindowKept_same (this s)); [ exact Ho | | exact Hw ].
      apply resume_plain_timing. now left.
  - apply (WindowKept_same (this s));
      [ apply setup_options, stop_frame | apply stop_frame | exact Hw ].
  - apply restart_window.
  - rewrite update_unfold. apply restart_window.
Qed.

Lemma run_keeps_window (host : Host) (ops : list Op) (s : System) :
  WindowKept (this s) -> WindowKept (this (run host ops s)).
Proof.
  revert s. induction ops as [| op ops IH]; intros s Hw; [ exact Hw | ].
  cbn [run]. apply IH. now apply step_keeps_window.
Qed.

Lemma construct_window (host : Host) (selector : string) (opts : PartialOptions)
    (tYear t nowTick : Z) (b : Browser) (s : System) :
  construct host selector opts tYear t nowTick b = Live s ->
  WindowKept (this s).
Proof.
  intros Hc. unfold construct in Hc.
  destruct (querySelectorAll host selector) as [| el els]; [ discriminate | ].
  injection Hc as <-. unfold init, seq.
  match goal with
  | |- context [start host nowTick (calculateTarget host t ?x)] =>
      apply (WindowKept_same (this (calculateTarget host t x)))
  end.
  - apply setup_options, start_frame.
  - apply start_frame.
  - apply calculateTarget_window.
Qed.

(** Whatever calls are made on a constructed instance, its timing window
    agrees with its configuration: a relative timer always spans exactly
    its duration ([targetTimestamp = startTimestamp + duration],
    [totalDuration = duration], pauses included), and a date timer keeps
    [totalDuration = max(0, targetTimestamp - startTimestamp)]. *)
Theorem window_agrees_with_configuration (host : Host) (selector : string)
    (opts : PartialOptions) (tYear t nowTick : Z) (b : Browser) (s : System)
    (ops : list Op) :
  construct host selector opts tYear t nowTick b = Live s ->
  WindowKept (this (run host ops s)).
Proof.
  intros Hc. apply run_keeps_window. now apply (construct_window host selector opts tYear t nowTick b).
Qed.

(** ** Progress along the window *)

Lemma Qdiv_inject_le (a b D : Z) :
  0 < D -> a <= b -> (inject_Z a / inject_Z D <= inject_Z b / inject_Z D)%Q.
Proof.
  intros HD Hab. unfold Qdiv. apply Qmult_le_compat_r.
  - now rewrite <- Zle_Qle.
  - apply Qinv_le_0_compat. change 0%Q with (inject_Z 0).
    rewrite <- Zle_Qle. lia.
Qed.

Lemma Qdiv_inject_same (D : Z) :
  0 < D -> (inject_Z D / inject_Z D == 1)%Q.
Proof.
  intros HD. apply Qmult_inv_r. intros H.
  change 0%Q with (inject_Z 0) in H.
  apply (proj1 (inject_Z_injective D 0)) in H. lia.
Qed.

Lemma Qdiv_inject_nonneg (a D : Z) :
  0 < D -> 0 <= a -> (0 <= inject_Z a / inject_Z D)%Q.
Proof.
  intros HD Ha.
  assert (H : (inject_Z 0 / inject_Z D <= inject_Z a / inject_Z D)%Q)
    by now apply Qdiv_inject_le.
  unfold Qdiv in H at 1. now rewrite Qmult_0_l in H.
Qed.

Lemma clamp01_inside (q : Q) : (0 <= q)%Q -> (q <= 1)%Q -> (clamp01 q == q)%Q.
Proof.
  intros H0 H1. unfold clamp01.
  destruct (Qlt_le_dec q 0) as [Hneg | _].
  - exfalso. apply (Qlt_irrefl q). now apply Qlt_le_trans with 0%Q.
  - destruct (Qlt_le_dec 1 q) as [Hbig | _]; [ | reflexivity ].
    apply Qle_antisym; [ apply Qlt_le_weak; exact Hbig | exact H1 ].
Qed.

Lemma clamp01_above (q : Q) : (1 <= q)%Q -> (clamp01 q == 1)%Q.
Proof.
  intros H1. unfold clamp01.
  destruct (Qlt_le_dec q 0) as [Hneg | _].
  - exfalso. apply (Qlt_irrefl q). apply Qlt_le_trans with 0%Q; [ exact Hneg | ].
    apply Qle_trans with 1%Q; [ discriminate | exact H1 ].
  - destruct (Qlt_le_dec 1 q) as [_ | Hsmall]; [ reflexivity | ].
    now apply Qle_antisym.
Qed.

Lemma clamp01_monotone (p q : Q) : (p <= q)%Q -> (clamp01 p <= clamp01 q)%Q.
Proof.
  intros Hpq. rewrite <- !clamp01_min_max.
  apply Q.min_le_compat_l. now apply Q.max_le_compat_l.
Qed.

(** In a window of positive length that has been kept, the target is the
    start plus the total duration. *)
Lemma WindowKept_target (c : RobustCountdown) (D : Z) :
  WindowKept c -> totalDuration c = Num D -> 0 < D ->
  targetTimestamp c = Num (startTimestamp c + D).
Proof.
  unfold WindowKept. intros Hw Ht HD.
  destruct (relativeDuration (options c)) as [d|].
  - destruct Hw as [Ha Hb]. rewrite Ht in Hb. injection Hb as <-. exact Ha.
  - rewrite Ht in Hw. destruct (targetTimestamp c) as [| T]; [ discriminate | ].
    cbn in Hw. injection Hw as Hw. f_equal. lia.
Qed.

(** While the clock is not before [startTimestamp], the progress handed
    to [on.update] and the time left are two views of one position in the
    window: [total = (totalDuration - timeLeft) / totalDuration], with
    [0 <= timeLeft <= totalDuration]. *)
Theorem progress_complements_timeLeft (host : Host) (c : RobustCountdown)
    (now D : Z) (f : Callback) (p : progressObject) (tl : number Z)
    (d : individualTimeData) :
  WindowKept c ->
  totalDuration c = Num D -> 0 < D ->
  startTimestamp c <= now ->
  In (OnUpdate f p tl d) (tickOutput host c now) ->
  exists (left : Z) (q : Q),
    tl = Num left /\ total p = Num q /\
    0 <= left <= D /\
    (q == inject_Z (D - left) / inject_Z D)%Q.
Proof.
  intros Hw Ht HD Hs Hin.
  apply In_tickOutput_update in Hin. destruct Hin as [_ [-> [_ ->]]].
  pose proof (WindowKept_target c D Hw Ht HD) as Htarget.
  cbn [total progressOf]. rewrite (globalProgress_positive c now D Ht HD).
  unfold timeLeftAt. rewrite Htarget. cbn [Js.sub Js.max].
  eexists _, _. split; [ reflexivity | ]. split; [ reflexivity | ].
  split; [ lia | ].
  rewrite clamp01_min_max.
  destruct (Z.le_gt_cases (startTimestamp c + D) now) as [Hover | Hin].
  - (* the target is reached *)
    replace (Z.max 0 (startTimestamp c + D - now)) with 0 by lia.
    rewrite Z.sub_0_r, Qdiv_inject_same by assumption.
    apply clamp01_above. rewrite <- (Qdiv_inject_same D HD).
    apply Qdiv_inject_le; lia.
  - replace (Z.max 0 (startTimestamp c + D - now))
      with (startTimestamp c + D - now) by lia.
    replace (D - (startTimestamp c + D - now)) with (now - startTimestamp c) by lia.
    apply clamp01_inside.
    + apply Qdiv_inject_nonneg; lia.
    + rewrite <- (Qdiv_inject_same D HD). apply Qdiv_inject_le; lia.
Qed.

(** The update that a finishing tick reports before [on.finish] shows a
    completed countdown: time left 0, every unit 0, progress exactly 1. *)
Theorem finishing_tick_reports_completion (host : Host) (c : RobustCountdown)
    (now : Z) (f : Callback) (p : progressObject) (tl : number Z)
    (d : individualTimeData) :
  WindowKept c ->
  Js.leb (timeLeftAt c now) (Num 0) = true ->
  In (OnUpdate f p tl d) (tickOutput host c now) ->
  tl = Num 0 /\
  d = {| d_days := Num 0; d_hours := Num 0; d_minutes := Num 0; d_seconds := Num 0 |} /\
  exists q, total p = Num q /\ (q == 1)%Q.
Proof.
  intros Hw Hl Hin.
  apply In_tickOutput_update in Hin. destruct Hin as [_ [-> [-> ->]]].
  assert (Hleft : exists T, targetTimestamp c = Num T /\ T <= now /\
                            timeLeftAt c now = Num 0).
  { unfold timeLeftAt in *. destruct (targetTimestamp c) as [| T]; [ discriminate | ].
    cbn in Hl. apply Z.leb_le in Hl. exists T. cbn. split; [ reflexivity | ].
    split; [ lia | f_equal; lia ]. }
  destruct Hleft as [T [Htarget [HT Hzero]]]. rewrite Hzero.
  split; [ reflexivity | ]. split; [ reflexivity | ].
  cbn [total progressOf].
  assert (Htot : exists D, totalDuration c = Num D /\
                           (0 < D -> D <= now - startTimestamp c)).
  { unfold WindowKept in Hw. destruct (relativeDuration (options c)) as [dur|].
    - destruct Hw as [Ha Hb]. rewrite Htarget in Ha. injection Ha as ->.
      exists dur. split; [ exact Hb | lia ].
    - rewrite Htarget in Hw. cbn in Hw. eexists. split; [ exact Hw | lia ]. }
  destruct Htot as [D [Htot Hreach]].
  destruct (Z.lt_ge_cases 0 D) as [HD | HD].
  - rewrite (globalProgress_positive c now D Htot HD). eexists. split; [ reflexivity | ].
    rewrite clamp01_min_max. apply clamp01_above.
    rewrite <- (Qdiv_inject_same D HD). apply Qdiv_inject_le; [ exact HD | auto ].
  - rewrite (globalProgress_nonpositive c now D Htot HD). eexists.
    split; reflexivity.
Qed.

(** For a fixed window the reported progress never decreases as the
    clock moves forward. *)
Theorem progress_total_monotone (c : RobustCountdown) (now1 now2 : Z) :
  now1 <= now2 ->
  exists q1 q2 : Q,
    globalProgress c now1 = Num q1 /\ globalProgress c now2 = Num q2 /\
    (q1 <= q2)%Q.
Proof.
  intros Hle. unfold globalProgress.
  destruct (totalDuration c) as [| D]; cbn [Js.gtb].
  - exists 1%Q, 1%Q. repeat split. apply Qle_refl.
  - destruct (Z.ltb_spec 0 D) as [HD | HD].
    + cbn [Js.sub Js.toQ Js.div Js.maxQ Js.minQ]. eexists _, _.
      split; [ reflexivity | ]. split; [ reflexivity | ].
      rewrite !clamp01_min_max. apply clamp01_monotone.
      apply Qdiv_inject_le; lia.
    + exists 1%Q, 1%Q. repeat split. apply Qle_refl.
Qed.

(** ** The per-unit ratios *)

Lemma timeData_ranges (tl : Z) :
  0 <= tl ->
  exists dd h m sec : Z,
    timeData (Num tl) =
      {| d_days := Num dd; d_hours := Num h;
         d_minutes := Num m; d_seconds := Num sec |} /\
    0 <= dd /\ dd * msPerDay <= tl /\
    0 <= h < 24 /\ 0 <= m < 60 /\ 0 <= sec < 60.
Proof.
  intros Htl. rewrite timeData_Num by assumption. do 4 eexists.
  split; [ reflexivity | ].
  unfold msPerDay, msPerHour, msPerMinute, msPerSecond.
  change (1000 * 60 * 60 * 24) with 86400000.
  change (1000 * 60 * 60) with 3600000.
  change (1000 * 60) with 60000.
  Z.to_euclidean_division_equations. lia.
Qed.

Lemma unit_ratio_range (v k : Z) :
  0 <= v < k ->
  (0 <= inject_Z v / inject_Z k)%Q /\ (inject_Z v / inject_Z k < 1)%Q.
Proof.
  intros [Hv Hk]. split.
  - apply Qdiv_inject_nonneg; lia.
  - apply Qlt_shift_div_r.
    + change 0%Q with (inject_Z 0). rewrite <- Zlt_Qlt. lia.
    + rewrite Qmult_1_l. now rewrite <- Zlt_Qlt.
Qed.

(** Whenever the target is a valid instant, the hour, minute and second
    ratios handed to [on.update] lie in [0, 1): they are the unit value
    over 24, 60 and 60, and the day ratio is not negative. *)
Theorem unit_ratios_in_range (host : Host) (c : RobustCountdown) (now T : Z)
    (f : Callback) (p : progressObject) (tl : number Z) (d : individualTimeData) :
  targetTimestamp c = Num T ->
  In (OnUpdate f p tl d) (tickOutput host c now) ->
  exists qd qh qm qs : Q,
    r_days p = Num qd /\ r_hours p = Num qh /\
    r_minutes p = Num qm /\ r_seconds p = Num qs /\
    (0 <= qd)%Q /\
    (0 <= qh)%Q /\ (qh < 1)%Q /\
    (0 <= qm)%Q /\ (qm < 1)%Q /\
    (0 <= qs)%Q /\ (qs < 1)%Q.
Proof.
  intros Htarget Hin.
  apply In_tickOutput_update in Hin. destruct Hin as [_ [-> [-> ->]]].
  unfold timeLeftAt. rewrite Htarget. cbn [Js.sub Js.max].
  destruct (timeData_ranges (Z.max 0 (T - now)) (Z.le_max_l _ _))
    as [dd [h [m [sec [-> [Hdd [_ [Hh [Hm Hsec]]]]]]]]].
  cbn [progressOf r_days r_hours r_minutes r_seconds d_days d_hours d_minutes
       d_seconds Js.toQ Js.div].
  change 24%Q with (inject_Z 24). change 60%Q with (inject_Z 60).
  destruct (unit_ratio_range h 24 Hh) as [Hh0 Hh1].
  destruct (unit_ratio_range m 60 Hm) as [Hm0 Hm1].
  destruct (unit_ratio_range sec 60 Hsec) as [Hs0 Hs1].
  assert (Hdays : exists qd,
            (if Js.gtb (totalDuration c) (Num 0)
             then Js.div (Num (inject_Z dd))
                    (Js.div (Js.toQ (totalDuration c)) (Num (inject_Z msPerDay)))
             else Num 0%Q) = Num qd /\ (0 <= qd)%Q).
  { destruct (totalDuration c) as [| D]; cbn [Js.gtb].
    - exists 0%Q. split; [ reflexivity | apply Qle_refl ].
    - destruct (Z.ltb_spec 0 D) as [HD | HD].
      + cbn [Js.toQ Js.div]. eexists. split; [ reflexivity | ].
        apply Qle_shift_div_l.
        * apply Qlt_shift_div_l.
          -- change 0%Q with (inject_Z 0). rewrite <- Zlt_Qlt. reflexivity.
          -- rewrite Qmult_0_l. change 0%Q with (inject_Z 0).
             rewrite <- Zlt_Qlt. exact HD.
        * rewrite Qmult_0_l. change 0%Q with (inject_Z 0).
          now rewrite <- Zle_Qle.
      + exists 0%Q. split; [ reflexivity | apply Qle_refl ]. }
  destruct Hdays as [qd [Hqd Hqd0]].
  exists qd. do 3 eexists.
  split; [ exact Hqd | ].
  repeat (split; [ reflexivity | ]).
  repeat (split; [ assumption | ]). assumption.
Qed.

(** In a kept window of positive length, and with the clock not before
    [startTimestamp], the day ratio handed to [on.update] lies in [0, 1]:
    the whole days left over the total duration counted in days. *)
Theorem days_ratio_in_range (host : Host) (c : RobustCountdown) (now D : Z)
    (f : Callback) (p : progressObject) (tl : number Z) (d : individualTimeData) :
  WindowKept c ->
  totalDuration c = Num D -> 0 < D ->
  startTimestamp c <= now ->
  In (OnUpdate f p tl d) (tickOutput host c now) ->
  exists (dd : Z) (q : Q),
    d_days d = Num dd /\ r_days p = Num q /\
    (q == inject_Z dd / (inject_Z D / inject_Z msPerDay))%Q /\
    (0 <= q)%Q /\ (q <= 1)%Q.
Proof.
  intros Hw Ht HD Hs Hin.
  apply In_tickOutput_update in Hin. destruct Hin as [_ [-> [-> ->]]].
  pose proof (WindowKept_target c D Hw Ht HD) as Htarget.
  unfold timeLeftAt. rewrite Htarget. cbn [Js.sub Js.max].
  destruct (timeData_ranges (Z.max 0 (startTimestamp c + D - now)) (Z.le_max_l _ _))
    as [dd [h [m [sec [-> [Hdd [Hle _]]]]]]].
  cbn [progressOf r_days d_days]. rewrite Ht. cbn [Js.gtb].
  destruct (Z.ltb_spec 0 D) as [_ | Hno]; [ | lia ].
  cbn [Js.toQ Js.div]. eexists _, _.
  split; [ reflexivity | ]. split; [ reflexivity | ]. split; [ reflexivity | ].
  assert (Hpos : (0 < inject_Z D / inject_Z msPerDay)%Q).
  { apply Qlt_shift_div_l.
    - change 0%Q with (inject_Z 0). rewrite <- Zlt_Qlt. reflexivity.
    - rewrite Qmult_0_l. change 0%Q with (inject_Z 0). now rewrite <- Zlt_Qlt. }
  split.
  - apply Qle_shift_div_l; [ exact Hpos | ].
    rewrite Qmult_0_l. change 0%Q with (inject_Z 0). now rewrite <- Zle_Qle.
  - apply Qle_shift_div_r; [ exact Hpos | ].
    rewrite Qmult_1_l. apply Qle_shift_div_l.
    + change 0%Q with (inject_Z 0). rewrite <- Zlt_Qlt. reflexivity.
    + rewrite <- inject_Z_mult, <- Zle_Qle. lia.
Qed.

(** ** Formatting and rendering *)

Lemma toString_below_100 (n : Z) :
  0 <= n < 100 ->
  String.length (Js.toString (Num n)) = if n <? 10 then 1%nat else 2%nat.
Proof.
  intros Hn.
  assert (Hall : forallb
            (fun k => Nat.eqb (String.length (Js.toString (Num (Z.of_nat k))))
                        (if Z.of_nat k <? 10 then 1%nat else 2%nat))
            (List.seq 0 100) = true) by (vm_compute; reflexivity).
  rewrite forallb_forall in Hall.
  specialize (Hall (Z.to_nat n)). rewrite Z2Nat.id in Hall by lia.
  apply Nat.eqb_eq, Hall, in_seq. lia.
Qed.

Lemma toString_from_10 (n : Z) :
  10 <= n -> (2 <= String.length (Js.toString (Num n)))%nat.
Proof.
  intros Hn. destruct n as [| p | p]; try lia.
  pose proof (DecimalZ.of_to (Z.pos p)) as Hback.
  unfold Js.toString. cbn [Z.to_int] in *.
  destruct (Pos.to_uint p) as [| u | u | u | u | u | u | u | u | u | u];
    [ cbn in Hback; lia | .. ];
    destruct u;
    cbn [NilZero.string_of_int NilZero.string_of_uint NilEmpty.string_of_uint
         String.length];
    try lia; cbn in Hback; lia.
Qed.

Lemma format_Num (opts : Options) (n : Z) :
  0 <= n ->
  format opts (Num n) =
    if zeroPad opts && (n <? 10)
    then String "0" (Js.toString (Num n))
    else Js.toString (Num n).
Proof.
  intros Hn. unfold format. destruct (zeroPad opts); cbn [andb]; [ | reflexivity ].
  unfold Js.padStart. destruct (Z.ltb_spec n 10) as [Hsmall | Hbig].
  - pose proof (toString_below_100 n ltac:(lia)) as Hlen.
    destruct (Z.ltb_spec n 10); [ | lia ]. rewrite Hlen. reflexivity.
  - pose proof (toString_from_10 n Hbig) as Hlen.
    replace (2 - String.length (Js.toString (Num n)))%nat with 0%nat by lia.
    reflexivity.
Qed.

(** [format] on a non-negative integer: with [zeroPad] on, a value below
    10 gets exactly one leading zero and a value from 10 on is written as
    it is, never truncated; with [zeroPad] off nothing is added. *)
Theorem format_pads_single_digits (opts : Options) (n : Z) :
  0 <= n ->
  format opts (Num n) =
    (if zeroPad opts && (n <? 10)
     then String "0" (Js.toString (Num n))
     else Js.toString (Num n)) /\
  (1 <= String.length (Js.toString (Num n)))%nat /\
  (zeroPad opts = true -> (2 <= String.length (format opts (Num n)))%nat).
Proof.
  intros Hn.
  assert (Hlen : (1 <= String.length (Js.toString (Num n)))%nat).
  { destruct (Z.ltb_spec n 10) as [Hsmall | Hbig].
    - rewrite toString_below_100 by lia.
      destruct (Z.ltb_spec n 10); [ lia | lia ].
    - pose proof (toString_from_10 n Hbig). lia. }
  split; [ now apply format_Num | ]. split; [ exact Hlen | ].
  intros Hpad. rewrite format_Num, Hpad by assumption. cbn [andb].
  destruct (Z.ltb_spec n 10) as [Hsmall | Hbig].
  - cbn [String.length]. lia.
  - now apply toString_from_10.
Qed.

(** A tick writes exactly the resolved slots: a node receives a text if
    and only if it is what [querySelector] finds in one of the wrapper
    elements for one of the four selectors, and the text is the formatted
    value of that unit.  A slot that resolves to nothing is skipped, and
    no other node is touched. *)
Theorem tick_renders_resolved_slots (host : Host) (c : RobustCountdown)
    (now : Z) (n : Node) (text : string) :
  let opts := options c in
  let data := timeData (timeLeftAt c now) in
  In (SetInnerText n text) (tickOutput host c now) <->
  exists el, In el (elements c) /\
    ((querySelector host el (daysSelector opts) = Some n /\
      text = format opts (d_days data)) \/
     (querySelector host el (hoursSelector opts) = Some n /\
      text = format opts (d_hours data)) \/
     (querySelector host el (minutesSelector opts) = Some n /\
      text = format opts (d_minutes data)) \/
     (querySelector host el (secondsSelector opts) = Some n /\
      text = format opts (d_seconds data))).
Proof.
  cbn zeta. unfold tickOutput. rewrite in_app_iff, in_flat_map.
  assert (Hslot : forall node v,
            In (SetInnerText n text) (setInnerText node v) <->
            node = Some n /\ text = v).
  { intros node v. destruct node as [m|]; cbn.
    - split.
      + intros [H | []]. injection H as -> ->. auto.
      + intros [H ->]. injection H as ->. auto.
    - split; [ contradiction | intros [H _]; discriminate ]. }
  split.
  - intros [[el [Hel Hin]] | Hup].
    + exists el. split; [ exact Hel | ]. unfold renderElement in Hin.
      rewrite !in_app_iff, !Hslot in Hin. tauto.
    + destruct (on_update (on (options c))); cbn in Hup;
        [ destruct Hup as [H | []]; discriminate | contradiction ].
  - intros [el [Hel Hin]]. left. exists el. split; [ exact Hel | ].
    unfold renderElement. rewrite !in_app_iff, !Hslot. tauto.
Qed.

(** With [zeroPad] on and a valid target, the hour, minute and second
    texts a tick writes are exactly two characters long, and the day text
    at least two. *)
Theorem clock_texts_are_two_characters (c : RobustCountdown) (now T : Z) :
  zeroPad (options c) = true ->
  targetTimestamp c = Num T ->
  let data := timeData (timeLeftAt c now) in
  String.length (format (options c) (d_hours data)) = 2%nat /\
  String.length (format (options c) (d_minutes data)) = 2%nat /\
  String.length (format (options c) (d_seconds data)) = 2%nat /\
  (2 <= String.length (format (options c) (d_days data)))%nat.
Proof.
  intros Hpad Htarget. cbn zeta. unfold timeLeftAt. rewrite Htarget.
  cbn [Js.sub Js.max].
  destruct (timeData_ranges (Z.max 0 (T - now)) (Z.le_max_l _ _))
    as [dd [h [m [sec [-> [Hdd [_ [Hh [Hm Hsec]]]]]]]]].
  cbn [d_days d_hours d_minutes d_seconds].
  assert (Hclock : forall v, 0 <= v < 60 ->
            String.length (format (options c) (Num v)) = 2%nat).
  { intros v Hv. rewrite format_Num, Hpad by lia. cbn [andb].
    pose proof (toString_below_100 v ltac:(lia)) as Hlen.
    destruct (Z.ltb_spec v 10); cbn [String.length]; rewrite Hlen; reflexivity. }
  repeat split; try (apply Hclock; lia).
  rewrite format_Num, Hpad by assumption. cbn [andb].
  destruct (Z.ltb_spec dd 10) as [Hsmall | Hbig].
  - pose proof (toString_below_100 dd ltac:(lia)) as Hlen.
    destruct (Z.ltb_spec dd 10); [ | lia ]. cbn [String.length]. lia.
  - now apply toString_from_10.
Qed.

(** ** Pausing without freeze *)

(** When pauses do not freeze -- a date target, or [disableOnPause] off --
    [pause()] then [resume()] leaves the window where it was: the time
    that passed during the pause is gone from the countdown. *)
Theorem pause_resume_time_keeps_running (host : Host) (s : System)
    (t P nowTick T : Z) (ticks : list Z) :
  relativeDuration (options (this s)) = None \/
  disableOnPause (timer (options (this s))) = false ->
  targetTimestamp (this s) = Num T ->
  0 <= P -> t + P <= T ->
  let s' := resume host (t + P) nowTick (run host (map Tick ticks) (pause t s)) in
  timing (this s') = timing (this s) /\
  timeLeftAt (this s) t = Num (T - t) /\
  timeLeftAt (this s') (t + P) = Num (T - t - P).
Proof.
  intros Hmode Htarget HP Hin. cbn zeta.
  rewrite ticks_while_paused by reflexivity.
  assert (Ht : timing (this (resume host (t + P) nowTick (pause t s))) =
               timing (this s)).
  { rewrite resume_plain_timing by exact Hmode. reflexivity. }
  remember (resume host (t + P) nowTick (pause t s)) as s' eqn:Es'. clear Es'.
  split; [ exact Ht | ].
  unfold timing in Ht. injection Ht as Ha _ _.
  unfold timeLeftAt. rewrite Ha, Htarget. cbn [Js.sub Js.max].
  split; f_equal; lia.
Qed.

(** ** Stopping *)

(** [stop()] releases the registration the instance holds and pauses it;
    a second [stop()] changes nothing: nothing is cleared twice. *)
Theorem stop_releases_once (s : System) :
  stop (stop s) = stop s /\
  intervalId (this (stop s)) = None /\
  isPaused (this (stop s)) = true /\
  timers (browser (stop s)) = release (intervalId (this s)) (timers (browser s)) /\
  (forall id, intervalId (this s) = Some id -> ~ In id (timers (browser (stop s)))).
Proof.
  split; [ | split; [ | split; [ | split ] ] ].
  - rewrite (stop_spec (stop s)). rewrite stop_spec.
    cbn [this browser intervalId set_isPaused set_intervalId release timers
         nextTimer log]. rewrite app_nil_r. reflexivity.
  - rewrite stop_spec. reflexivity.
  - rewrite stop_spec. reflexivity.
  - rewrite stop_spec. reflexivity.
  - intros id Hid. rewrite stop_spec. cbn [browser timers]. rewrite Hid.
    cbn [release]. intros Hin. apply filter_In in Hin. destruct Hin as [_ Hne].
    rewrite Pos.eqb_refl in Hne. discriminate.
Qed.

(** ** Reconfiguring *)

Lemma mergeOptions_nothing (base : Options) :
  mergeOptions base Sample.noOptions = base.
Proof. destruct base as [? ? ? ? ? ? ? ? [? ?] ? ? ? ? ? [? ?]]. reflexivity. Qed.

(** [update({})] is [restart()]: an empty object changes no option, and
    the instance restarts its window from the current clock. *)
Theorem update_with_nothing_is_restart (host : Host) (t nowTick : Z) (s : System) :
  update host Sample.noOptions t nowTick s = restart host t nowTick s.
Proof.
  rewrite update_unfold. f_equal.
  destruct s as [c b]. unfold assign. cbn [this browser]. f_equal.
  rewrite mergeOptions_nothing. destruct c. reflexivity.
Qed.

Lemma setup_elements (c c' : RobustCountdown) :
  setup c = setup c' -> elements c = elements c'.
Proof. intros H. now injection H. Qed.

(** [update(o)] overrides exactly the keys [o] holds: every option takes
    the value passed when its key is present and keeps its previous value
    otherwise.  The [timer] and [on] groups are merged key by key, not
    replaced: passing only [timer.duration] keeps [disableOnPause], and
    passing only [on.finish] keeps [on.update].  The wrapper elements are
    not resolved again. *)
Theorem update_overrides_present_keys (host : Host) (o : PartialOptions)
    (t nowTick : Z) (s : System) :
  let old := options (this s) in
  let new := options (this (update host o t nowTick s)) in
  year new = match p_year o with Some v => v | None => year old end /\
  month new = match p_month o with Some v => v | None => month old end /\
  day new = match p_day o with Some v => v | None => day old end /\
  hours new = match p_hours o with Some v => v | None => hours old end /\
  minutes new = match p_minutes o with Some v => v | None => minutes old end /\
  seconds new = match p_seconds o with Some v => v | None => seconds old end /\
  enableUTC new =
    match p_enableUTC o with Some v => v | None => enableUTC old end /\
  targetTime new =
    match p_targetTime o with Some v => v | None => targetTime old end /\
  zeroPad new = match p_zeroPad o with Some v => v | None => zeroPad old end /\
  daysSelector new =
    match p_daysSelector o with Some v => v | None => daysSelector old end /\
  hoursSelector new =
    match p_hoursSelector o with Some v => v | None => hoursSelector old end /\
  minutesSelector new =
    match p_minutesSelector o with Some v => v | None => minutesSelector old end /\
  secondsSelector new =
    match p_secondsSelector o with Some v => v | None => secondsSelector old end /\
  duration (timer new) =
    match p_timer o with
    | Some {| p_duration := Some v |} => v
    | _ => duration (timer old)
    end /\
  disableOnPause (timer new) =
    match p_timer o with
    | Some {| p_disableOnPause := Some v |} => v
    | _ => disableOnPause (timer old)
    end /\
  on_update (on new) =
    match p_on o with
    | Some {| p_on_update := Some v |} => v
    | _ => on_update (on old)
    end /\
  on_finish (on new) =
    match p_on o with
    | Some {| p_on_finish := Some v |} => v
    | _ => on_finish (on old)
    end /\
  elements (this (update host o t nowTick s)) = elements (this s).
Proof.
  cbn zeta.
  pose proof (step_options host (Update o t nowTick) s) as Ho. cbn [step] in Ho.
  assert (He : elements (this (update host o t nowTick s)) = elements (this s)).
  { rewrite update_unfold. unfold restart, seq.
    etransitivity; [ apply setup_elements, start_frame | ].
    etransitivity;
      [ apply (proj1 (proj2 (proj2 (calculateTarget_fields host t _)))) | ].
    etransitivity; [ apply setup_elements, stop_frame | reflexivity ]. }
  rewrite Ho, He. clear Ho He.
  unfold mergeOptions, mergeTimer, mergeOn, spread.
  cbn [year month day hours minutes seconds enableUTC targetTime timer zeroPad
       daysSelector hoursSelector minutesSelector secondsSelector on].
  destruct (p_timer o) as [[pd pf]|], (p_on o) as [[pu pn]|];
    cbn [duration disableOnPause on_update on_finish p_duration p_disableOnPause
         p_on_update p_on_finish];
    repeat (split; [ reflexivity | ]);
    try reflexivity;
    destruct pd, pf; try destruct pu; try destruct pn;
    repeat (split; [ reflexivity | ]); reflexivity.
Qed.

(** ** The interval registration *)

Lemma filter_others (id lo : TimerId) (others : list TimerId) :
  Forall (fun i => (i < lo)%positive) others -> (lo <= id)%positive ->
  List.filter (fun j => negb (Pos.eqb j id)) others = others.
Proof.
  intros Hall Hlo. induction Hall as [| i rest Hi _ IH]; [ reflexivity | ].
  cbn [List.filter]. destruct (Pos.eqb_spec i id) as [-> | _]; [ lia | ].
  cbn [negb]. now rewrite IH.
Qed.

Lemma release_held (others : list TimerId) (lo : TimerId) (s : System) :
  OwnsItsTimer others lo s ->
  release (intervalId (this s)) (timers (browser s)) = others.
Proof.
  intros [Ht [Hall [Hid _]]]. rewrite Ht. unfold held.
  destruct (intervalId (this s)) as [id|]; [ | reflexivity ].
  destruct (Hid id eq_refl) as [Hlo _].
  change (release (Some id) ([id] ++ others))
    with (List.filter (fun j => negb (Pos.eqb j id)) (id :: others)).
  cbn [List.filter]. rewrite Pos.eqb_refl. cbn [negb].
  now apply (filter_others id lo).
Qed.

Lemma OwnsItsTimer_same (others : list TimerId) (lo : TimerId) (s s' : System) :
  intervalId (this s') = intervalId (this s) ->
  timers (browser s') = timers (browser s) ->
  nextTimer (browser s') = nextTimer (browser s) ->
  OwnsItsTimer others lo s -> OwnsItsTimer others lo s'.
Proof. unfold OwnsItsTimer, held. intros -> -> ->. auto. Qed.

Lemma stop_owns (others : list TimerId) (lo : TimerId) (s : System) :
  OwnsItsTimer others lo s -> OwnsItsTimer others lo (stop s).
Proof.
  intros Ho. pose proof (release_held others lo s Ho) as Hrel.
  destruct Ho as [_ [Hall [_ Hnext]]].
  rewrite stop_spec. unfold OwnsItsTimer, held.
  cbn [this browser intervalId set_isPaused set_intervalId timers nextTimer app].
  rewrite Hrel. repeat split; try assumption; discriminate.
Qed.

Lemma tick_owns (host : Host) (now : Z) (others : list TimerId) (lo : TimerId)
    (s : System) :
  OwnsItsTimer others lo s -> OwnsItsTimer others lo (tick host now s).
Proof.
  intros Ho. destruct (isPaused (this s)) eqn:Hp.
  - now rewrite tick_paused.
  - destruct (Js.leb (timeLeftAt (this s) now) (Num 0)) eqn:Hl.
    + pose proof (release_held others lo s Ho) as Hrel.
      destruct Ho as [_ [Hall [_ Hnext]]].
      rewrite tick_finishing by assumption. unfold OwnsItsTimer, held.
      cbn [this browser intervalId set_isPaused set_intervalId timers nextTimer app].
      rewrite Hrel. repeat split; try assumption; discriminate.
    + rewrite tick_running by assumption.
      apply (OwnsItsTimer_same others lo s); [ reflexivity .. | exact Ho ].
Qed.

Lemma start_owns (host : Host) (now : Z) (others : list TimerId) (lo : TimerId)
    (s : System) :
  OwnsItsTimer others lo s -> OwnsItsTimer others lo (start host now s).
Proof.
  intros Ho. pose proof (release_held others lo s Ho) as Hrel.
  destruct Ho as [_ [Hall [_ Hnext]]].
  destruct (start_spec host now s) as [_ [Hi [Ht [Hn _]]]].
  unfold OwnsItsTimer, held. rewrite Hi, Ht, Hn, Hrel.
  split; [ reflexivity | ]. split; [ exact Hall | ]. split; [ | lia ].
  intros id Hid. injection Hid as <-. lia.
Qed.

Lemma calculateTarget_owns (host : Host) (t : Z) (others : list TimerId)
    (lo : TimerId) (s : System) :
  OwnsItsTimer others lo s -> OwnsItsTimer others lo (calculateTarget host t s).
Proof.
  intros Ho. destruct (calculateTarget_fields host t s) as [_ [_ [_ [Hi [_ [_ Hb]]]]]].
  apply (OwnsItsTimer_same others lo s); [ exact Hi | now rewrite Hb .. | exact Ho ].
Qed.

Lemma restart_owns (host : Host) (t nowTick : Z) (others : list TimerId)
    (lo : TimerId) (s : System) :
  OwnsItsTimer others lo s -> OwnsItsTimer others lo (restart host t nowTick s).
Proof.
  intros Ho. unfold restart, seq.
  now apply start_owns, calculateTarget_owns, stop_owns.
Qed.

Lemma step_owns (host : Host) (op : Op) (others : list TimerId) (lo : TimerId)
    (s : System) :
  OwnsItsTimer others lo s -> OwnsItsTimer others lo (step host op s).
Proof.
  intros Ho. op_cases op.
  - now apply tick_owns.
  - now apply start_owns.
  - exact Ho.
  - destruct (isPaused (this s)) eqn:Hp; [ | now rewrite resume_running ].
    destruct (relativeDuration (options (this s))) as [d|] eqn:Hr;
      [ destruct (disableOnPause (timer (options (this s)))) eqn:Hf | ].
    + rewrite (resume_freeze host now nowTick s d Hp Hr Hf). cbn zeta.
      apply start_owns.
      apply (OwnsItsTimer_same others lo s); [ reflexivity .. | exact Ho ].
    + rewrite resume_plain by auto. now apply start_owns.
    + rewrite resume_plain by auto. now apply start_owns.
  - now apply stop_owns.
  - now apply restart_owns.
  - rewrite update_unfold. apply restart_owns.
    apply (OwnsItsTimer_same others lo s); [ reflexivity .. | exact Ho ].
Qed.

Lemma run_owns (host : Host) (ops : list Op) (others : list TimerId)
    (lo : TimerId) (s : System) :
  OwnsItsTimer others lo s -> OwnsItsTimer others lo (run host ops s).
Proof.
  revert s. induction ops as [| op ops IH]; intros s H0; [ exact H0 | ].
  cbn [run]. apply IH. now apply step_owns.
Qed.

Lemma construct_owns (host : Host) (selector : string) (opts : PartialOptions)
    (tYear t nowTick : Z) (b : Browser) (s : System) :
  Forall (fun i => (i < nextTimer b)%positive) (timers b) ->
  construct host selector opts tYear t nowTick b = Live s ->
  OwnsItsTimer (timers b) (nextTimer b) s.
Proof.
  intros Hfresh Hc. unfold construct in Hc.
  destruct (querySelectorAll host selector) as [| el els]; [ discriminate | ].
  injection Hc as <-. unfold init, seq.
  apply start_owns, calculateTarget_owns.
  unfold OwnsItsTimer, held. cbn [this browser intervalId app].
  split; [ reflexivity | ]. split; [ exact Hfresh | ].
  split; [ discriminate | lia ].
Qed.

(** Whatever calls are made on a constructed instance, the live
    registrations of the browser are the ones that were there before the
    construction, untouched, plus at most one: the interval the instance
    holds in [intervalId].  The instance never leaves a second interval
    running and never clears a timer that is not its own. *)
Theorem at_most_one_interval (host : Host) (selector : string)
    (opts : PartialOptions) (tYear t nowTick : Z) (b : Browser) (s : System)
    (ops : list Op) :
  Forall (fun i => (i < nextTimer b)%positive) (timers b) ->
  construct host selector opts tYear t nowTick b = Live s ->
  let s' := run host ops s in
  timers (browser s') = held (this s') ++ timers b /\
  (forall id, intervalId (this s') = Some id ->
     ~ In id (timers b) /\ (id < nextTimer (browser s'))%positive).
Proof.
  intros Hfresh Hc. cbn zeta.
  pose proof (run_owns host ops _ _ s
                (construct_owns host selector opts tYear t nowTick b s Hfresh Hc))
    as [Ht [Hall [Hid _]]].
  split; [ exact Ht | ].
  intros id Hsome. destruct (Hid id Hsome) as [Hlo Hhi]. split; [ | exact Hhi ].
  intros Hin. rewrite Forall_forall in Hall. specialize (Hall id Hin). lia.
Qed.

(** ** Running means registered *)

Lemma step_running_registered (host : Host) (op : Op) (s : System) :
  (isPaused (this s) = false -> intervalId (this s) <> None) ->
  isPaused (this (step host op s)) = false ->
  intervalId (this (step host op s)) <> None.
Proof.
  intros Hinv.
  assert (Hstart : forall n x, intervalId (this (start host n x)) <> None).
  { intros n x. destruct (start_spec host n x) as [_ [Hi _]]. rewrite Hi. discriminate. }
  op_cases op.
  - destruct (isPaused (this s)) eqn:Hp.
    + rewrite tick_paused by assumption. rewrite Hp. discriminate.
    + destruct (Js.leb (timeLeftAt (this s) now) (Num 0)) eqn:Hl.
      * rewrite tick_finishing by assumption. cbn. discriminate.
      * rewrite tick_running by assumption. cbn [this]. intros _. now apply Hinv.
  - intros _. apply Hstart.
  - cbn. discriminate.
  - destruct (isPaused (this s)) eqn:Hp.
    + intros _. unfold resume. rewrite Hp. cbn [negb]. apply Hstart.
    + rewrite resume_running by assumption. intros _. now apply Hinv.
  - rewrite stop_spec. cbn. discriminate.
  - intros _. apply Hstart.
  - intros _. rewrite update_unfold. apply Hstart.
Qed.

Lemma run_running_registered (host : Host) (ops : list Op) (s : System) :
  (isPaused (this s) = false -> intervalId (this s) <> None) ->
  isPaused (this (run host ops s)) = false ->
  intervalId (this (run host ops s)) <> None.
Proof.
  revert s. induction ops as [| op ops IH]; intros s H0; [ exact H0 | ].
  cbn [run]. apply IH. now apply step_running_registered.
Qed.

Lemma construct_registered (host : Host) (selector : string)
    (opts : PartialOptions) (tYear t nowTick : Z) (b : Browser) (s : System) :
  construct host selector opts tYear t nowTick b = Live s ->
  intervalId (this s) <> None.
Proof.
  intros Hc. unfold construct in Hc.
  destruct (querySelectorAll host selector) as [| el els]; [ discriminate | ].
  injection Hc as <-. unfold init, seq.
  match goal with
  | |- intervalId (this (start host nowTick ?x)) <> None =>
      destruct (start_spec host nowTick x) as [_ [Hi _]]; rewrite Hi
  end.
  discriminate.
Qed.

(** A constructed instance that is not paused always holds an interval:
    whatever calls were made, [isPaused = false] implies that
    [intervalId] is a live registration, so ticks keep coming. *)
Theorem running_instance_is_registered (host : Host) (selector : string)
    (opts : PartialOptions) (tYear t nowTick : Z) (b : Browser) (s : System)
    (ops : list Op) :
  Forall (fun i => (i < nextTimer b)%positive) (timers b) ->
  construct host selector opts tYear t nowTick b = Live s ->
  isPaused (this (run host ops s)) = false ->
  exists id, intervalId (this (run host ops s)) = Some id /\
             In id (timers (browser (run host ops s))).
Proof.
  intros Hfresh Hc Hrun.
  pose proof (run_running_registered host ops s
                (fun _ => construct_registered host selector opts tYear t nowTick b s Hc)
                Hrun) as Hreg.
  destruct (intervalId (this (run host ops s))) as [id|] eqn:Hid;
    [ | contradiction ].
  exists id. split; [ reflexivity | ].
  pose proof (run_owns host ops _ _ s
                (construct_owns host selector opts tYear t nowTick b s Hfresh Hc))
    as [Ht _].
  rewrite Ht. unfold held. rewrite Hid. now left.
Qed.

(** ** Ticks before the target *)

Lemma not_yet_due (c : RobustCountdown) (now : Z) :
  match targetTimestamp c with
  | Num T => now < T
  | NaN => True
  end ->
  Js.leb (timeLeftAt c now) (Num 0) = false.
Proof.
  unfold timeLeftAt. destruct (targetTimestamp c) as [| T]; cbn; [ reflexivity | ].
  intros H. apply Z.leb_gt. lia.
Qed.

(** Interval ticks that come before the target -- or any ticks at all when
    the target is not a valid instant -- never complete the countdown: each
    renders and reports once, [on.finish] is not invoked, the instance
    stays as it is and keeps its interval.  A timer with an invalid date
    therefore never finishes. *)
Theorem ticks_before_target_never_finish (host : Host) (s : System)
    (ticks : list Z) :
  isPaused (this s) = false ->
  Forall (fun now => match targetTimestamp (this s) with
                     | Num T => now < T
                     | NaN => True
                     end) ticks ->
  let s' := run host (map Tick ticks) s in
  this s' = this s /\
  timers (browser s') = timers (browser s) /\
  log (browser s') = log (browser s) ++ flat_map (tickOutput host (this s)) ticks /\
  finishes (log (browser s')) = finishes (log (browser s)).
Proof.
  intros Hp Hall. cbn zeta. revert s Hp Hall.
  induction ticks as [| now ticks IH]; intros s Hp Hall.
  - cbn. rewrite app_nil_r. auto.
  - inversion Hall as [| ? ? Hnow Hrest]; subst.
    cbn [map run step flat_map].
    rewrite (tick_running host now s Hp (not_yet_due (this s) now Hnow)).
    match goal with
    | |- context [run host _ ?x] =>
        destruct (IH x Hp Hrest) as [Hthis [Htimers [Hlog Hfin]]]
    end.
    cbn [this browser record log timers] in *.
    split; [ exact Hthis | ]. split; [ exact Htimers | ]. split.
    + rewrite Hlog, <- app_assoc. reflexivity.
    + rewrite Hfin, finishes_app, (proj1 (tickOutput_finishes host (this s) now)).
      now rewrite app_nil_r.
Qed.

(** ** Restarting a relative timer *)

Lemma restart_relative (host : Host) (t nowTick : Z) (s : System) (d : Z) :
  relativeDuration (options (this s)) = Some d ->
  t <= nowTick < t + d ->
  let s' := restart host t nowTick s in
  timing (this s') = (Num (t + d), t, Num d) /\
  isPaused (this s') = false /\
  intervalId (this s') = Some (nextTimer (browser s)) /\
  finishes (log (browser s')) = finishes (log (browser s)).
Proof.
  intros Hr Hnow. cbn zeta.
  assert (Hr' : relativeDuration (options (this (stop s))) = Some d)
    by (rewrite stop_spec; exact Hr).
  destruct (calculateTarget_relative host t (stop s) d Hr') as [Htarget Htotal].
  destruct (calculateTarget_fields host t (stop s)) as [Hstart [_ [_ [Hid [_ [_ Hb]]]]]].
  cbn zeta in Hstart.
  unfold restart, seq.
  remember (calculateTarget host t (stop s)) as x eqn:Ex. clear Ex.
  destruct (start_spec host nowTick x) as [Hlog [Hi [_ [_ Hp]]]].
  cbn zeta in Hlog, Hp.
  destruct (start_frame host nowTick x) as [Htm _].
  assert (Hleft : Js.leb (timeLeftAt (set_isPaused false (this x)) nowTick) (Num 0)
                  = false).
  { apply not_yet_due. cbn [set_isPaused targetTimestamp]. rewrite Htarget. lia. }
  rewrite Hleft in Hlog, Hp.
  assert (Hnone : intervalId (set_isPaused false (this x)) = None)
    by (cbn [set_isPaused intervalId]; rewrite Hid, stop_spec; reflexivity).
  rewrite Hnone in Hlog.
  remember (start host nowTick x) as s' eqn:Es'. clear Es'.
  split; [ | split; [ exact Hp | split ] ].
  - rewrite Htm. unfold timing. now rewrite Htarget, Hstart, Htotal.
  - rewrite Hi, Hb, stop_spec. reflexivity.
  - rewrite Hlog, Hb, stop_spec. cbn [browser log].
    rewrite !finishes_app.
    rewrite (proj1 (tickOutput_finishes host (set_isPaused false (this x)) nowTick)).
    destruct (intervalId (this s)); cbn; now rewrite !app_nil_r.
Qed.

(** [restart()] on a relative timer grants the whole duration again,
    whatever state the instance was in -- running, paused, stopped or
    finished: the window is [[t, t + duration]], the instance is running
    and registered, and [on.finish] is not invoked by the restart. *)
Theorem restart_rearms_relative_timer (host : Host) (t nowTick : Z) (s : System)
    (d : Z) :
  relativeDuration (options (this s)) = Some d ->
  t <= nowTick < t + d ->
  let s' := restart host t nowTick s in
  timing (this s') = (Num (t + d), t, Num d) /\
  timeLeftAt (this s') t = Num d /\
  isPaused (this s') = false /\
  intervalId (this s') = Some (nextTimer (browser s)) /\
  finishes (log (browser s')) = finishes (log (browser s)).
Proof.
  intros Hr Hnow. cbn zeta.
  destruct (restart_relative host t nowTick s d Hr Hnow) as [Ht [Hp [Hi Hf]]].
  remember (restart host t nowTick s) as s' eqn:Es'. clear Es'.
  repeat split; try assumption.
  unfold timing in Ht. injection Ht as Ha _ _.
  unfold timeLeftAt. rewrite Ha. cbn. f_equal. lia.
Qed.

(** ** [addOneMinute] *)

(** On a live instance [addOneMinute()] does not add a minute to the time
    left: it reconfigures the timer to its configured duration plus
    60000 ms (60000 ms if none was configured) and restarts it, so the
    countdown shows that whole duration again and runs, whatever had
    elapsed and whether it was paused or finished; [disableOnPause] is
    kept.  On an undefined global it does nothing; on an instance that
    matched no element it throws. *)
Theorem addOneMinute_restarts_extended (host : Host) (status : option Node)
    (t nowTick : Z) (s : System) :
  let D := match duration (timer (options (this s))) with
           | Some d => d
           | None => 0
           end in
  t <= nowTick < t + (D + 60000) ->
  exists s',
    addOneMinute host status t nowTick (Holds (Live s)) = Some (Holds (Live s')) /\
    timing (this s') = (Num (t + (D + 60000)), t, Num (D + 60000)) /\
    timeLeftAt (this s') t = Num (D + 60000) /\
    isPaused (this s') = false /\
    duration (timer (options (this s'))) = Some (D + 60000) /\
    disableOnPause (timer (options (this s'))) =
      disableOnPause (timer (options (this s))) /\
    finishes (log (browser s')) = finishes (log (browser s)) /\
    addOneMinute host status t nowTick Undefined = Some Undefined /\
    (forall b, addOneMinute host status t nowTick (Holds (Inert b)) = None).
Proof.
  cbn zeta. intros Hnow.
  set (D := match duration (timer (options (this s))) with
            | Some d => d
            | None => 0
            end) in *.
  assert (HD : match duration (timer (options (this s))) with
               | Some d => orElse d 0
               | None => 0
               end = D).
  { unfold D, orElse. destruct (duration (timer (options (this s)))) as [d|];
      [ | reflexivity ].
    destruct (Z.eqb_spec d 0); [ now subst | reflexivity ]. }
  unfold addOneMinute. rewrite HD. change (60 * 1000) with 60000.
  eexists. split; [ reflexivity | ].
  rewrite update_unfold.
  set (s0 := assign (fun c => set_options
                       (mergeOptions (options c) (durationOnly (D + 60000))) c) s).
  assert (Hr : relativeDuration (options (this s0)) = Some (D + 60000)).
  { apply relativeDuration_Some. split; [ reflexivity | lia ]. }
  destruct (restart_relative host t nowTick s0 (D + 60000) Hr Hnow)
    as [Ht [Hp [_ Hf]]].
  pose proof (step_options host (Restart t nowTick) s0) as Ho. cbn [step] in Ho.
  remember (restart host t nowTick s0) as s1 eqn:Es1. clear Es1.
  cbn [emits this browser record log].
  split; [ exact Ht | ]. split.
  { unfold timing in Ht. injection Ht as Ha _ _.
    unfold timeLeftAt. rewrite Ha. cbn. f_equal. lia. }
  split; [ exact Hp | ]. rewrite Ho.
  split; [ reflexivity | ]. split; [ reflexivity | ]. split.
  { rewrite finishes_app, Hf. destruct status; cbn; now rewrite app_nil_r. }
  split; [ reflexivity | reflexivity ].
Qed.

(** ** Construction with no options *)

(** An instance constructed with [{}] takes every default: it counts down
    to 1 January, 00:00:00 local time, of the current year.  When that
    instant is not after the clock -- as it is for the current year -- the
    countdown completes during construction: the instance is left paused,
    no [on.finish] is configured to be told, and the constructor's
    [start()] has still registered its interval. *)
Theorem construct_defaults_to_new_year (host : Host) (selector : string)
    (tYear t nowTick : Z) (b : Browser) (T : Z) :
  querySelectorAll host selector <> [] ->
  Date_local host (getFullYear host tYear) 0 1 0 0 0 = Num T ->
  T <= nowTick ->
  exists s,
    construct host selector Sample.noOptions tYear t nowTick b = Live s /\
    options (this s) = defaults (getFullYear host tYear) /\
    timing (this s) = (Num T, t, Num (Z.max 0 (T - t))) /\
    isPaused (this s) = true /\
    intervalId (this s) = Some (nextTimer b) /\
    finishes (log (browser s)) = finishes (log b).
Proof.
  intros Hne Hdate Hpast. unfold construct.
  destruct (querySelectorAll host selector) as [| el els]; [ contradiction | ].
  eexists. split; [ reflexivity | ].
  rewrite mergeOptions_nothing. unfold init, seq.
  match goal with
  | |- context [start host nowTick (calculateTarget host t ?x)] => set (s0 := x)
  end.
  assert (Hr : relativeDuration (options (this s0)) = None) by reflexivity.
  destruct (calculateTarget_absolute host t s0 Hr) as [Htarget Htotal].
  cbn zeta in Htarget, Htotal.
  change (legacyTarget (options (this s0))) with (@None string) in Htarget, Htotal.
  cbn [s0 this options defaults enableUTC year month day hours minutes seconds
       orElse Z.eqb Z.sub Z.add Z.opp Z.pos_sub] in Htarget, Htotal.
  rewrite Hdate in Htarget, Htotal.
  destruct (calculateTarget_fields host t s0) as [Hstart [Hopt [_ [Hid [_ [_ Hb]]]]]].
  cbn zeta in Hstart, Hopt.
  remember (calculateTarget host t s0) as x eqn:Ex. clear Ex.
  destruct (start_spec host nowTick x) as [Hlog [Hi [_ [_ Hp]]]].
  cbn zeta in Hlog, Hp.
  destruct (start_frame host nowTick x) as [Htm [Hs _]].
  assert (Hleft : Js.leb (timeLeftAt (set_isPaused false (this x)) nowTick) (Num 0)
                  = true).
  { unfold timeLeftAt. cbn [set_isPaused targetTimestamp]. rewrite Htarget.
    cbn. apply Z.leb_le. lia. }
  rewrite Hleft in Hlog, Hp.
  remember (start host nowTick x) as s' eqn:Es'. clear Es'.
  split; [ rewrite (setup_options _ _ Hs), Hopt; reflexivity | ].
  split; [ rewrite Htm; unfold timing; rewrite Htarget, Hstart, Htotal; reflexivity | ].
  split; [ exact Hp | ].
  split; [ rewrite Hi, Hb; reflexivity | ].
  rewrite Hlog, Hb. cbn [s0 browser]. rewrite !finishes_app.
  rewrite (proj1 (tickOutput_finishes host (set_isPaused false (this x)) nowTick)).
  rewrite finishOutput_finishes. cbn [set_isPaused options]. rewrite Hopt.
  cbn. now rewrite !app_nil_r.
Qed.

(** * The further properties at work on the sample browser *)

Lemma updateAt_reported (host : Host) (f : Callback) (c : RobustCountdown)
    (now : Z) :
  on_update (on (options c)) = Some f ->
  In (updateAt f c now) (tickOutput host c now).
Proof.
  intros Hf. unfold tickOutput, updateAt. rewrite Hf.
  apply in_or_app. right. left. reflexivity.
Defined.

(** The 60 s timer after a pause of 3 s and a tick. *)
Lemma window_agrees_with_configuration_witness :
  construct Sample.host "#timer" (Sample.relativeOptions 60000 true) 0 0 0
    Sample.blank = Live minuteTimer /\
  WindowKept (this (run Sample.host [Pause 1000; Resume 4000 4000; Tick 5000]
                      minuteTimer)).
Proof.
  split.
  - reflexivity.
  - apply (window_agrees_with_configuration Sample.host "#timer"
             (Sample.relativeOptions 60000 true) 0 0 0 Sample.blank).
    reflexivity.
Defined.

Lemma minuteTimer_window : WindowKept (this minuteTimer).
Proof. split; reflexivity. Defined.

(** The 60 s timer, 15 s in. *)
Lemma progress_complements_timeLeft_witness :
  WindowKept (this minuteTimer) /\
  totalDuration (this minuteTimer) = Num 60000 /\
  0 < 60000 /\
  startTimestamp (this minuteTimer) <= 15000 /\
  In (updateAt 7%nat (this minuteTimer) 15000)
     (tickOutput Sample.host (this minuteTimer) 15000) /\
  exists (left : Z) (q : Q),
    timeLeftAt (this minuteTimer) 15000 = Num left /\
    total (progressOf (this minuteTimer) 15000
             (timeData (timeLeftAt (this minuteTimer) 15000))) = Num q /\
    0 <= left <= 60000 /\
    (q == inject_Z (60000 - left) / inject_Z 60000)%Q.
Proof.
  split; [ exact minuteTimer_window | ]. split; [ reflexivity | ].
  split; [ lia | ]. split; [ discriminate | ].
  split; [ apply updateAt_reported; reflexivity | ].
  apply (progress_complements_timeLeft Sample.host (this minuteTimer) 15000 60000
           7%nat _ _ (timeData (timeLeftAt (this minuteTimer) 15000))).
  - exact minuteTimer_window.
  - reflexivity.
  - lia.
  - discriminate.
  - apply updateAt_reported. reflexivity.
Defined.

(** The 60 s timer at the tick of second 61. *)
Lemma finishing_tick_reports_completion_witness :
  WindowKept (this minuteTimer) /\
  Js.leb (timeLeftAt (this minuteTimer) 61000) (Num 0) = true /\
  In (updateAt 7%nat (this minuteTimer) 61000)
     (tickOutput Sample.host (this minuteTimer) 61000) /\
  timeLeftAt (this minuteTimer) 61000 = Num 0 /\
  timeData (timeLeftAt (this minuteTimer) 61000) =
    {| d_days := Num 0; d_hours := Num 0; d_minutes := Num 0; d_seconds := Num 0 |} /\
  exists q,
    total (progressOf (this minuteTimer) 61000
             (timeData (timeLeftAt (this minuteTimer) 61000))) = Num q /\
    (q == 1)%Q.
Proof.
  split; [ exact minuteTimer_window | ]. split; [ reflexivity | ].
  split; [ apply updateAt_reported; reflexivity | ].
  apply (finishing_tick_reports_completion Sample.host (this minuteTimer) 61000
           7%nat).
  - exact minuteTimer_window.
  - reflexivity.
  - apply updateAt_reported. reflexivity.
Defined.

Lemma progress_total_monotone_witness :
  15000 <= 16000 /\
  exists q1 q2 : Q,
    globalProgress (this minuteTimer) 15000 = Num q1 /\
    globalProgress (this minuteTimer) 16000 = Num q2 /\
    (q1 <= q2)%Q.
Proof.
  split; [ discriminate | ].
  apply (progress_total_monotone (this minuteTimer) 15000 16000). discriminate.
Defined.

Lemma unit_ratios_in_range_witness :
  targetTimestamp (this minuteTimer) = Num 60000 /\
  In (updateAt 7%nat (this minuteTimer) 15000)
     (tickOutput Sample.host (this minuteTimer) 15000) /\
  exists qd qh qm qs : Q,
    r_days (progressOf (this minuteTimer) 15000
              (timeData (timeLeftAt (this minuteTimer) 15000))) = Num qd /\
    r_hours (progressOf (this minuteTimer) 15000
               (timeData (timeLeftAt (this minuteTimer) 15000))) = Num qh /\
    r_minutes (progressOf (this minuteTimer) 15000
                 (timeData (timeLeftAt (this minuteTimer) 15000))) = Num qm /\
    r_seconds (progressOf (this minuteTimer) 15000
                 (timeData (timeLeftAt (this minuteTimer) 15000))) = Num qs /\
    (0 <= qd)%Q /\
    (0 <= qh)%Q /\ (qh < 1)%Q /\
    (0 <= qm)%Q /\ (qm < 1)%Q /\
    (0 <= qs)%Q /\ (qs < 1)%Q.
Proof.
  split; [ reflexivity | ].
  split; [ apply updateAt_reported; reflexivity | ].
  apply (unit_ratios_in_range Sample.host (this minuteTimer) 15000 60000 7%nat
           _ (timeLeftAt (this minuteTimer) 15000)
           (timeData (timeLeftAt (this minuteTimer) 15000))).
  - reflexivity.
  - apply updateAt_reported. reflexivity.
Defined.

(** The three-day timer after one day and one hour. *)
Lemma days_ratio_in_range_witness :
  WindowKept (this threeDayTimer) /\
  totalDuration (this threeDayTimer) = Num 259200000 /\
  0 < 259200000 /\
  startTimestamp (this threeDayTimer) <= 90000000 /\
  In (updateAt 7%nat (this threeDayTimer) 90000000)
     (tickOutput Sample.host (this threeDayTimer) 90000000) /\
  exists (dd : Z) (q : Q),
    d_days (timeData (timeLeftAt (this threeDayTimer) 90000000)) = Num dd /\
    r_days (progressOf (this threeDayTimer) 90000000
              (timeData (timeLeftAt (this threeDayTimer) 90000000))) = Num q /\
    (q == inject_Z dd / (inject_Z 259200000 / inject_Z msPerDay))%Q /\
    (0 <= q)%Q /\ (q <= 1)%Q.
Proof.
  assert (Hw : WindowKept (this threeDayTimer)) by (split; reflexivity).
  split; [ exact Hw | ]. split; [ reflexivity | ].
  split; [ lia | ]. split; [ discriminate | ].
  split; [ apply updateAt_reported; reflexivity | ].
  apply (days_ratio_in_range Sample.host (this threeDayTimer) 90000000 259200000
           7%nat _ (timeLeftAt (this threeDayTimer) 90000000)
           (timeData (timeLeftAt (this threeDayTimer) 90000000))).
  - exact Hw.
  - reflexivity.
  - lia.
  - discriminate.
  - apply updateAt_reported. reflexivity.
Defined.

Lemma format_pads_single_digits_witness :
  0 <= 5 /\
  format (defaults 2030) (Num 5) =
    (if zeroPad (defaults 2030) && (5 <? 10)
     then String "0" (Js.toString (Num 5))
     else Js.toString (Num 5)) /\
  (1 <= String.length (Js.toString (Num 5%Z)))%nat /\
  (zeroPad (defaults 2030) = true ->
   (2 <= String.length (format (defaults 2030) (Num 5%Z)))%nat).
Proof.
  split; [ discriminate | ].
  apply (format_pads_single_digits (defaults 2030) 5). discriminate.
Defined.

Lemma clock_texts_are_two_characters_witness :
  zeroPad (options (this minuteTimer)) = true /\
  targetTimestamp (this minuteTimer) = Num 60000 /\
  let data := timeData (timeLeftAt (this minuteTimer) 15000) in
  String.length (format (options (this minuteTimer)) (d_hours data)) = 2%nat /\
  String.length (format (options (this minuteTimer)) (d_minutes data)) = 2%nat /\
  String.length (format (options (this minuteTimer)) (d_seconds data)) = 2%nat /\
  (2 <= String.length (format (options (this minuteTimer)) (d_days data)))%nat.
Proof.
  split; [ reflexivity | ]. split; [ reflexivity | ].
  apply (clock_texts_are_two_characters (this minuteTimer) 15000 60000); reflexivity.
Defined.

(** The 60 s timer without freeze, paused at 1000 for 9000 ms. *)
Lemma pause_resume_time_keeps_running_witness :
  (relativeDuration (options (this runningMinuteTimer)) = None \/
   disableOnPause (timer (options (this runningMinuteTimer))) = false) /\
  targetTimestamp (this runningMinuteTimer) = Num 60000 /\
  0 <= 9000 /\ 1000 + 9000 <= 60000 /\
  let s' := resume Sample.host (1000 + 9000) 10000
              (run Sample.host (map Tick [2000; 3000]) (pause 1000 runningMinuteTimer)) in
  timing (this s') = timing (this runningMinuteTimer) /\
  timeLeftAt (this runningMinuteTimer) 1000 = Num (60000 - 1000) /\
  timeLeftAt (this s') (1000 + 9000) = Num (60000 - 1000 - 9000).
Proof.
  split; [ right; reflexivity | ]. split; [ reflexivity | ].
  split; [ discriminate | ]. split; [ discriminate | ].
  apply (pause_resume_time_keeps_running Sample.host runningMinuteTimer
           1000 9000 10000 60000 [2000; 3000]).
  - right. reflexivity.
  - reflexivity.
  - discriminate.
  - discriminate.
Defined.

(** The 60 s timer through a pause, a restart and a stop. *)
Lemma at_most_one_interval_witness :
  Forall (fun i => (i < nextTimer Sample.blank)%positive) (timers Sample.blank) /\
  construct Sample.host "#timer" (Sample.relativeOptions 60000 true) 0 0 0
    Sample.blank = Live minuteTimer /\
  let s' := run Sample.host
              [Pause 1000; Resume 4000 4000; Restart 5000 5000; Tick 6000; Stop]
              minuteTimer in
  timers (browser s') = held (this s') ++ timers Sample.blank /\
  (forall id, intervalId (this s') = Some id ->
     ~ In id (timers Sample.blank) /\ (id < nextTimer (browser s'))%positive).
Proof.
  split; [ constructor | ]. split; [ reflexivity | ].
  apply (at_most_one_interval Sample.host "#timer"
           (Sample.relativeOptions 60000 true) 0 0 0 Sample.blank minuteTimer).
  - constructor.
  - reflexivity.
Defined.

Lemma running_instance_is_registered_witness :
  Forall (fun i => (i < nextTimer Sample.blank)%positive) (timers Sample.blank) /\
  construct Sample.host "#timer" (Sample.relativeOptions 60000 true) 0 0 0
    Sample.blank = Live minuteTimer /\
  isPaused (this (run Sample.host [Pause 1000; Resume 4000 4000; Tick 5000]
                    minuteTimer)) = false /\
  exists id,
    intervalId (this (run Sample.host [Pause 1000; Resume 4000 4000; Tick 5000]
                        minuteTimer)) = Some id /\
    In id (timers (browser (run Sample.host
                              [Pause 1000; Resume 4000 4000; Tick 5000]
                              minuteTimer))).
Proof.
  split; [ constructor | ]. split; [ reflexivity | ]. split; [ reflexivity | ].
  apply (running_instance_is_registered Sample.host "#timer"
           (Sample.relativeOptions 60000 true) 0 0 0 Sample.blank minuteTimer).
  - constructor.
  - reflexivity.
  - reflexivity.
Defined.

(** Three interval ticks of the 60 s timer. *)
Lemma ticks_before_target_never_finish_witness :
  isPaused (this minuteTimer) = false /\
  Forall (fun now => match targetTimestamp (this minuteTimer) with
                     | Num T => now < T
                     | NaN => True
                     end) [1000; 2000; 3000] /\
  let s' := run Sample.host (map Tick [1000; 2000; 3000]) minuteTimer in
  this s' = this minuteTimer /\
  timers (browser s') = timers (browser minuteTimer) /\
  log (browser s') =
    log (browser minuteTimer) ++
    flat_map (tickOutput Sample.host (this minuteTimer)) [1000; 2000; 3000] /\
  finishes (log (browser s')) = finishes (log (browser minuteTimer)).
Proof.
  assert (Hall : Forall (fun now => match targetTimestamp (this minuteTimer) with
                                    | Num T => now < T
                                    | NaN => True
                                    end) [1000; 2000; 3000])
    by (repeat constructor).
  split; [ reflexivity | ]. split; [ exact Hall | ].
  apply (ticks_before_target_never_finish Sample.host minuteTimer [1000; 2000; 3000]).
  - reflexivity.
  - exact Hall.
Defined.

(** The 60 s timer, finished at 61000 and restarted at 70000. *)
Lemma restart_rearms_relative_timer_witness :
  relativeDuration (options (this (tick Sample.host 61000 minuteTimer))) = Some 60000 /\
  70000 <= 70000 < 70000 + 60000 /\
  let s' := restart Sample.host 70000 70000 (tick Sample.host 61000 minuteTimer) in
  timing (this s') = (Num (70000 + 60000), 70000, Num 60000) /\
  timeLeftAt (this s') 70000 = Num 60000 /\
  isPaused (this s') = false /\
  intervalId (this s') =
    Some (nextTimer (browser (tick Sample.host 61000 minuteTimer))) /\
  finishes (log (browser s')) =
    finishes (log (browser (tick Sample.host 61000 minuteTimer))).
Proof.
  split; [ reflexivity | ]. split; [ lia | ].
  apply (restart_rearms_relative_timer Sample.host 70000 70000
           (tick Sample.host 61000 minuteTimer) 60000).
  - reflexivity.
  - lia.
Defined.

(** [addOneMinute()] at 30000 on the 60 s timer, a status element present. *)
Lemma addOneMinute_restarts_extended_witness :
  30000 <= 30000 < 30000 + (60000 + 60000) /\
  exists s',
    addOneMinute Sample.host (Some 20%nat) 30000 30000 (Holds (Live minuteTimer))
      = Some (Holds (Live s')) /\
    timing (this s') = (Num (30000 + (60000 + 60000)), 30000, Num (60000 + 60000)) /\
    timeLeftAt (this s') 30000 = Num (60000 + 60000) /\
    isPaused (this s') = false /\
    duration (timer (options (this s'))) = Some (60000 + 60000) /\
    disableOnPause (timer (options (this s'))) =
      disableOnPause (timer (options (this minuteTimer))) /\
    finishes (log (browser s')) = finishes (log (browser minuteTimer)) /\
    addOneMinute Sample.host (Some 20%nat) 30000 30000 Undefined = Some Undefined /\
    (forall b, addOneMinute Sample.host (Some 20%nat) 30000 30000 (Holds (Inert b))
               = None).
Proof.
  split; [ lia | ].
  apply (addOneMinute_restarts_extended Sample.host (Some 20%nat) 30000 30000
           minuteTimer).
  cbn. lia.
Defined.

(** [new RobustCountdown("#timer", {})] on 1 July 2030 in the sample
    browser. *)
Lemma construct_defaults_to_new_year_witness :
  querySelectorAll Sample.host "#timer" <> [] /\
  Date_local Sample.host (getFullYear Sample.host 1909094400000) 0 1 0 0 0
    = Num 1893456000000 /\
  1893456000000 <= 1909094400000 /\
  exists s,
    construct Sample.host "#timer" Sample.noOptions 1909094400000 1909094400000
      1909094400000 Sample.blank = Live s /\
    options (this s) = defaults (getFullYear Sample.host 1909094400000) /\
    timing (this s) =
      (Num 1893456000000, 1909094400000,
       Num (Z.max 0 (1893456000000 - 1909094400000))) /\
    isPaused (this s) = true /\
    intervalId (this s) = Some (nextTimer Sample.blank) /\
    finishes (log (browser s)) = finishes (log Sample.blank).
Proof.
  split; [ discriminate | ]. split; [ reflexivity | ]. split; [ discriminate | ].
  apply (construct_defaults_to_new_year Sample.host "#timer" 1909094400000
           1909094400000 1909094400000 Sample.blank 1893456000000).
  - discriminate.
  - reflexivity.
  - discriminate.
Defined.

(** [start()] at 61000 on the 60 s timer. *)
Lemma start_on_elapsed_target_witness :
  Js.leb (timeLeftAt (this minuteTimer) 61000) (Num 0) = true /\
  isPaused (this (start Sample.host 61000 minuteTimer)) = true /\
  intervalId (this (start Sample.host 61000 minuteTimer))
    = Some (nextTimer (browser minuteTimer)) /\
  In (nextTimer (browser minuteTimer))
     (timers (browser (start Sample.host 61000 minuteTimer))).
Proof.
  split; [ reflexivity | ].
  apply (start_on_elapsed_target Sample.host 61000 minuteTimer). reflexivity.
Defined.

(** The 60 s timer, reconfigured to two minutes, paused and resumed. *)
Lemma totalDuration_notNegative_witness :
  durationNotNegative (timer (options (this minuteTimer))) /\
  notNegative (totalDuration (this minuteTimer)) /\
  Forall opPassesNoNegativeDuration
    [Update (durationOnly 120000) 1000 1000; Pause 2000; Resume 3000 3000] /\
  durationNotNegative
    (timer (options (this (run Sample.host
       [Update (durationOnly 120000) 1000 1000; Pause 2000; Resume 3000 3000]
       minuteTimer)))) /\
  notNegative
    (totalDuration (this (run Sample.host
       [Update (durationOnly 120000) 1000 1000; Pause 2000; Resume 3000 3000]
       minuteTimer))).
Proof.
  assert (Hd : durationNotNegative (timer (options (this minuteTimer))))
    by (cbn; lia).
  assert (Ht : notNegative (totalDuration (this minuteTimer))) by (cbn; lia).
  assert (Hops : Forall opPassesNoNegativeDuration
            [Update (durationOnly 120000) 1000 1000; Pause 2000; Resume 3000 3000]).
  { repeat constructor. cbn. lia. }
  split; [ exact Hd | ]. split; [ exact Ht | ]. split; [ exact Hops | ].
  apply (totalDuration_notNegative Sample.host _ minuteTimer Hd Ht Hops).
Defined.

(** ** Resuming after [stop()] *)

(** [stop()] does not record when it happened.  Under pause-freeze a
    [resume()] that follows it moves the window by the time elapsed since
    [pauseStart] -- the last [pause()], or 0 if there was none -- and not
    by the time the instance was stopped. *)
Theorem resume_after_stop_shifts_by_pauseStart (host : Host) (s : System)
    (now nowTick d : Z) :
  relativeDuration (options (this s)) = Some d ->
  disableOnPause (timer (options (this s))) = true ->
  timing (this (resume host now nowTick (stop s))) =
  (Js.add (targetTimestamp (this s)) (Num (now - pauseStart (this s))),
   startTimestamp (this s) + (now - pauseStart (this s)),
   totalDuration (this s)).
Proof.
  intros Hr Hf.
  assert (Hp : isPaused (this (stop s)) = true) by (rewrite stop_spec; reflexivity).
  assert (Hr' : relativeDuration (options (this (stop s))) = Some d)
    by (rewrite stop_spec; exact Hr).
  assert (Hf' : disableOnPause (timer (options (this (stop s)))) = true)
    by (rewrite stop_spec; exact Hf).
  rewrite (resume_freeze_timing host now nowTick (stop s) d Hp Hr' Hf').
  rewrite stop_spec. reflexivity.
Qed.

(** The 60 s timer, never paused, stopped and resumed at 5000: the target
    moves from 60000 to 65000. *)
Lemma resume_after_stop_shifts_by_pauseStart_witness :
  relativeDuration (options (this minuteTimer)) = Some 60000 /\
  disableOnPause (timer (options (this minuteTimer))) = true /\
  timing (this (resume Sample.host 5000 5000 (stop minuteTimer))) =
  (Js.add (targetTimestamp (this minuteTimer))
     (Num (5000 - pauseStart (this minuteTimer))),
   startTimestamp (this minuteTimer) + (5000 - pauseStart (this minuteTimer)),
   totalDuration (this minuteTimer)).
Proof.
  split; [ reflexivity | ]. split; [ reflexivity | ].
  apply (resume_after_stop_shifts_by_pauseStart Sample.host minuteTimer
           5000 5000 60000); reflexivity.
Defined.
